(** * CS-Romer: the animation module ([src/csromer/animations/animations.py])

    A shallow embedding of the four classes of the module
    ([ColormapManager], [DataConfig], [ColorBarManager], [AnimationCreator])
    and of the library calls they make, followed by the properties of the
    specification that concern them.

    Conventions of the embedding:
    - a Python [float] and a numpy [float64] are both IEEE binary64 values;
      they are Rocq's primitive [float], whose operations are the hardware
      ones.  An integer entry of the header (such as [crpix1 = 50]) is the
      float Python converts it to in mixed arithmetic;
    - a numpy array is a shape together with its elements in row-major order;
    - a [dict] with string keys is a [gmap string _];
    - a Python exception is a value of [exn], and a function that may raise
      returns a [result];
    - what matplotlib decides on its own (the colormaps it knows, the limits
      a colour bar leaves on its image, the figures it can render, the files
      it can write) is a parameter of the embedding, a [plt.Library]. *)

From Stdlib Require Import ZArith List String Ascii Bool Lia Floats Uint63.
From stdpp Require Import base option list gmap strings pretty.

#[local] Set Warnings "-inexact-float".
Local Open Scope Z_scope.

(** ** Exceptions *)

Inductive exn : Type :=
| IndexError
| KeyError (key : string)
| ValueError
| TypeError
| ZeroDivisionError.

Inductive result (A : Type) : Type :=
| Ok (a : A)
| Raise (e : exn).

Arguments Ok {A} a.
Arguments Raise {A} e.

#[global] Instance result_ret : MRet result := fun A a => Ok a.
#[global] Instance result_bind : MBind result := fun A B k m =>
  match m with
  | Ok a => k a
  | Raise e => Raise e
  end.

(** [seq[i]] for a non-negative index. *)
Definition getitem {A} (l : list A) (i : nat) : result A :=
  match l !! i with
  | Some a => Ok a
  | None => Raise IndexError
  end.

(** [d[k]] on a dictionary. *)
Definition getkey {A} (d : gmap string A) (k : string) : result A :=
  match d !! k with
  | Some a => Ok a
  | None => Raise (KeyError k)
  end.

(** ** Binary64 helpers *)

Module F.

(** The exact value of a finite float, as [m * 2^e] with a signed [m]. *)
Definition signed (s : bool) (m : positive) : Z :=
  if s then Z.neg m else Z.pos m.

(** [ceil (sm * 2^e)]. *)
Definition ceil_scaled (sm e : Z) : Z :=
  if 0 <=? e then sm * 2 ^ e else - ((- sm) / 2 ^ (- e)).

(** [m * 2^e] rounded to the nearest integer, ties to even ([m >= 0]). *)
Definition round_half_even (m e : Z) : Z :=
  if 0 <=? e then m * 2 ^ e
  else
    let den := 2 ^ (- e) in
    let q := m / den in
    let r := m mod den in
    if 2 * r <? den then q
    else if den <? 2 * r then q + 1
    else if Z.even q then q else q + 1.

Definition of_nat (n : nat) : float :=
  PrimFloat.of_uint63 (Uint63.of_Z (Z.of_nat n)).

Definition signbit (x : float) : bool :=
  match Prim2SF x with
  | S754_zero s | S754_infinity s | S754_finite s _ _ => s
  | S754_nan => false
  end.

Definition digit (n : Z) : ascii :=
  ascii_of_nat (48 + Z.to_nat (n mod 10)).

(** The four digits after the point of [q / 10^4]. *)
Definition frac4 (q : Z) : string :=
  String (digit (q / 1000)) (String (digit (q / 100))
    (String (digit (q / 10)) (String (digit q) EmptyString))).

Definition sign_str (s : bool) : string :=
  if s then "-"%string else ""%string.

Definition fixed4 (s : bool) (q : Z) : string :=
  (sign_str s +:+ pretty (q / 10000) +:+ "." +:+ frac4 q)%string.

(** [format(x, ".4f")]: the decimal expansion of [x] correctly rounded
    (ties to even on the exact binary value) to four places. *)
Definition format_4f (x : float) : string :=
  match Prim2SF x with
  | S754_nan => "nan"%string
  | S754_infinity s => (sign_str s +:+ "inf")%string
  | S754_zero s => fixed4 s 0
  | S754_finite s m e => fixed4 s (round_half_even (Z.pos m * 10000) e)
  end.

End F.

(** ** The numpy calls of the module *)

Module np.

Record ndarray : Type := mk_ndarray {
  shape : list nat;
  data : list float
}.

(** The invariant of an array value: as many elements as the shape says. *)
Definition wf (a : ndarray) : Prop :=
  length (data a) = foldr Nat.mul 1%nat (shape a).

(** [a.shape[i]] *)
Definition shape_at (a : ndarray) (i : nat) : result nat :=
  getitem (shape a) i.

Definition pi : float := 0x1.921fb54442d18p+1%float.

(** The scalar kernels of [np.maximum] and [np.minimum]: the first operand
    is kept when it is strictly beyond the second or is a NaN, the second
    otherwise; so the second wins a tie (of [-0.0] and [0.0]), and a NaN
    operand gives NaN. *)
Definition maximum (a b : float) : float :=
  if (b <? a)%float || PrimFloat.is_nan a then a else b.

Definition minimum (a b : float) : float :=
  if (a <? b)%float || PrimFloat.is_nan a then a else b.

(** A reduction over all elements ([axis=None]); it has no identity. *)
Definition reduce (f : float -> float -> float) (l : list float)
  : result float :=
  match l with
  | [] => Raise ValueError
  | x :: xs => Ok (fold_left f xs x)
  end.

(** A reduction along [axis=0] of a sequence of arrays: the sequence is
    stacked (all shapes equal, at least one array), then reduced
    elementwise. *)
Definition reduce_axis0 (f : float -> float -> float) (cube : list ndarray)
  : result ndarray :=
  match cube with
  | [] => Raise ValueError
  | c0 :: rest =>
      if forallb (fun c => bool_decide (shape c = shape c0)) rest then
        Ok {| shape := shape c0;
              data := fold_left (fun acc c => zip_with f acc (data c))
                                rest (data c0) |}
      else Raise ValueError
  end.

Definition amax (a : ndarray) : result float := reduce maximum (data a).
Definition amin (a : ndarray) : result float := reduce minimum (data a).
Definition amax_axis0 : list ndarray -> result ndarray := reduce_axis0 maximum.
Definition amin_axis0 : list ndarray -> result ndarray := reduce_axis0 minimum.

Definition MAX_INTP : Z := 2 ^ 63 - 1.
Definition MIN_INTP : Z := - 2 ^ 63.

(** The length of a range from the quotient [(stop - start) / step]: its
    ceiling, which must be a number between the bounds of the index type
    taken as floats.  Every failure reaches the caller as [ValueError].  The
    bound above is [2^63] as a float, one more than the greatest index: the
    conversion wraps it to the least index. *)
Definition ceil_to_intp (v : float) : result Z :=
  match Prim2SF v with
  | S754_nan => Raise ValueError
  | S754_infinity _ => Raise ValueError
  | S754_zero _ => Ok 0
  | S754_finite s m e =>
      let c := F.ceil_scaled (F.signed s m) e in
      if (MIN_INTP <=? c) && (c <=? MAX_INTP + 1) then
        Ok (if c =? MAX_INTP + 1 then MIN_INTP else c)
      else Raise ValueError
  end.

(** The elements of a range of [len] floats: [start], [start + step], and
    from the third on [start + i * delta], where [delta] is the difference
    of the first two. *)
Definition fill (start step : float) (len : nat) : list float :=
  let next := (start + step)%float in
  let delta := (next - start)%float in
  map (fun i => match i with
                | O => start
                | S O => next
                | _ => (start + F.of_nat i * delta)%float
                end) (seq 0 len).

(** [np.arange(start, stop, step)], given the difference [stop - start]
    and its quotient by [step].  A quotient that underflows to zero gives one
    element, or none when it is negative.  The allocation of the array is
    not part of the model. *)
Definition arange_from (start step diff quot : float)
  : result (list float) :=
  len ← ceil_to_intp quot;
  let len :=
    if PrimFloat.is_zero quot && negb (PrimFloat.is_zero diff)
    then (if F.signbit quot then 0 else 1)
    else len in
  Ok (fill start step (Z.to_nat len)).

(** [np.arange] on numpy scalars: a division by zero gives an infinity or
    a NaN, which the length computation then rejects. *)
Definition arange (start stop step : float) : result (list float) :=
  let diff := (stop - start)%float in
  arange_from start step diff (diff / step)%float.

(** [np.arange] on Python floats: the quotient is a Python division, which
    raises on a zero divisor. *)
Definition arange_py (start stop step : float) : result (list float) :=
  let diff := (stop - start)%float in
  if PrimFloat.is_zero step then Raise ZeroDivisionError
  else arange_from start step diff (diff / step)%float.

End np.


(** ** [ColormapManager] *)

Module ColormapManager.

Record t : Type := mk { cmaps : list string }.

Definition init : t :=
  {| cmaps := [ "magma"; "inferno"; "inferno_r"; "plasma"; "viridis";
                "bone"; "afmhot"; "gist_heat"; "CMRmap"; "gnuplot";
                "Blues_r"; "Purples_r"; "ocean"; "hot"; "seismic_r";
                "ocean_r" ]%string |}.

Definition get_colormaps (self : t) : list string := cmaps self.

End ColormapManager.

(** ** [DataConfig] *)

Module DataConfig.

Record t : Type := mk {
  data : np.ndarray;
  header : gmap string float;
  units : string;
  u_factor : float
}.

Definition default_units : string := "degrees".

Definition _set_units_factor (units : string) : float :=
  if String.eqb units "arcmin" then 60.0%float
  else if String.eqb units "arcsec" then 3600.0%float
  else if String.eqb units "rad" then (np.pi / 180.0)%float
  else 1.0%float.

(** [DataConfig(data, header, units="degrees")]; [None] stands for an
    argument that is not passed. *)
Definition init (data : np.ndarray) (header : gmap string float)
    (units : option string) : t :=
  let units := default default_units units in
  {| data := data; header := header; units := units;
     u_factor := _set_units_factor units |}.

(** The list [[x, y, x1, y1]] that [config_axes] returns, and its items
    of index 2 and 3. *)
Definition axes : Type := list float * list float * float * float.
Definition axes_2 (a : axes) : float := a.1.2.
Definition axes_3 (a : axes) : float := a.2.

(** [x_n], [y_n], [x_px] and [y_px] are the first values of the variables
    [x] and [y] of the method (lines 50 to 55), which the two ranges then
    replace. *)
Definition config_axes (self : t) : result axes :=
  x_n ← np.shape_at (data self) 0;
  y_n ← np.shape_at (data self) 1;
  cdelt1 ← getkey (header self) "cdelt1";
  let dx := (cdelt1 * u_factor self)%float in
  cdelt2 ← getkey (header self) "cdelt2";
  let dy := (cdelt2 * u_factor self)%float in
  let x_px := map (fun i => (F.of_nat i * dx)%float) (seq 0 x_n) in
  let y_px := map (fun i => (F.of_nat i * dy)%float) (seq 0 y_n) in
  crpix1 ← getkey (header self) "crpix1";
  let x1 := ((crpix1 - 1.0) * PrimFloat.abs dx)%float in
  crpix2 ← getkey (header self) "crpix2";
  let y1 := ((crpix2 - 1.0) * dy)%float in
  x ← np.arange x1 (- x1 - dx)%float (- dx)%float;
  y ← np.arange_py (- y1)%float (y1 + dy)%float dy;
  Ok (x, y, x1, y1).

End DataConfig.

(** ** The plotting calls of the module

    One figure with one image, its axes and at most one colour bar; the
    calls of the module update it in place, so it is threaded through them.
    An image is a 2-D scalar array, or a 3-D array of grey, RGB or RGBA
    pixels.

    What the plotting library decides by itself is a parameter of the
    model, a [Library]: which colormap names it knows, what limits a colour
    bar leaves on its image, which figures it can draw, which files it can
    write. *)

Module plt.

Record Colorbar : Type := mk_colorbar {
  cb_label : string;
  cb_location : string;
  cb_size : string;
  cb_pad : float;
  cb_extend : string;
  (** the [nbins] of the [MaxNLocator] set as locator, if one was *)
  cb_nbins : option nat
}.

Record Figure : Type := mk_figure {
  im_data : np.ndarray;
  im_origin : string;
  im_aspect : string;
  im_cmap : string;
  im_extent : list float;
  (** [None]: the limit is not set yet *)
  im_clim : option float * option float;
  ax_title : string;
  (** [None]: the default padding of the library *)
  ax_title_pad : option float;
  ax_xlabel : string;
  ax_ylabel : string;
  colorbar : option Colorbar
}.

Record Library : Type := mk_library {
  (** the colormap names the library knows *)
  registered : string -> bool;
  (** [fig.colorbar] on an image with these data and limits: the limits
      that the image and the colour bar share from then on (autoscaled from
      the data where they were not set, and moved when the colour bar cannot
      show them), or the error raised *)
  colorbar_draw :
    np.ndarray -> option float * option float -> result (float * float);
  (** [im.set_clim(vmin, vmax)] on an image with a colour bar and these
      limits: the limits shared afterwards, once the colour bar has been
      redrawn, or the error raised *)
  clim_update :
    float * float -> option float -> option float -> result (float * float);
  (** the error, if any, of rendering a figure for the writer *)
  draw_error : Figure -> option exn;
  (** the error, if any, of the writer for a file name and an interval *)
  writer_error : string -> Z -> option exn
}.

Definition valid_image (a : np.ndarray) : bool :=
  match np.shape a with
  | [_; _] => true
  | [_; _; c] => (c =? 1)%nat || (c =? 3)%nat || (c =? 4)%nat
  | _ => false
  end.

Definition set_title (label : string) (pad : option float) (fig : Figure)
  : Figure :=
  {| im_data := im_data fig; im_origin := im_origin fig;
     im_aspect := im_aspect fig; im_cmap := im_cmap fig;
     im_extent := im_extent fig; im_clim := im_clim fig;
     ax_title := label; ax_title_pad := pad;
     ax_xlabel := ax_xlabel fig; ax_ylabel := ax_ylabel fig;
     colorbar := colorbar fig |}.

Definition set_xlabel (label : string) (fig : Figure) : Figure :=
  {| im_data := im_data fig; im_origin := im_origin fig;
     im_aspect := im_aspect fig; im_cmap := im_cmap fig;
     im_extent := im_extent fig; im_clim := im_clim fig;
     ax_title := ax_title fig; ax_title_pad := ax_title_pad fig;
     ax_xlabel := label; ax_ylabel := ax_ylabel fig;
     colorbar := colorbar fig |}.

Definition set_ylabel (label : string) (fig : Figure) : Figure :=
  {| im_data := im_data fig; im_origin := im_origin fig;
     im_aspect := im_aspect fig; im_cmap := im_cmap fig;
     im_extent := im_extent fig; im_clim := im_clim fig;
     ax_title := ax_title fig; ax_title_pad := ax_title_pad fig;
     ax_xlabel := ax_xlabel fig; ax_ylabel := label;
     colorbar := colorbar fig |}.

Definition set_colorbar (cb : option Colorbar) (fig : Figure) : Figure :=
  {| im_data := im_data fig; im_origin := im_origin fig;
     im_aspect := im_aspect fig; im_cmap := im_cmap fig;
     im_extent := im_extent fig; im_clim := im_clim fig;
     ax_title := ax_title fig; ax_title_pad := ax_title_pad fig;
     ax_xlabel := ax_xlabel fig; ax_ylabel := ax_ylabel fig;
     colorbar := cb |}.

Definition with_clim (clim : option float * option float) (fig : Figure)
  : Figure :=
  {| im_data := im_data fig; im_origin := im_origin fig;
     im_aspect := im_aspect fig; im_cmap := im_cmap fig;
     im_extent := im_extent fig; im_clim := clim;
     ax_title := ax_title fig; ax_title_pad := ax_title_pad fig;
     ax_xlabel := ax_xlabel fig; ax_ylabel := ax_ylabel fig;
     colorbar := colorbar fig |}.

Definition set_data (A : np.ndarray) (fig : Figure) : result Figure :=
  if negb (valid_image A) then Raise TypeError
  else Ok {| im_data := A; im_origin := im_origin fig;
             im_aspect := im_aspect fig; im_cmap := im_cmap fig;
             im_extent := im_extent fig; im_clim := im_clim fig;
             ax_title := ax_title fig; ax_title_pad := ax_title_pad fig;
             ax_xlabel := ax_xlabel fig; ax_ylabel := ax_ylabel fig;
             colorbar := colorbar fig |}.

(** [cb.locator = ticker.MaxNLocator(nbins=n); cb.update_ticks()] *)
Definition set_locator (nbins : nat) (cb : Colorbar) : Colorbar :=
  {| cb_label := cb_label cb; cb_location := cb_location cb;
     cb_size := cb_size cb; cb_pad := cb_pad cb;
     cb_extend := cb_extend cb; cb_nbins := Some nbins |}.

Section WithLibrary.

Variable lib : Library.

Definition imshow (X : np.ndarray) (origin aspect cmap : string)
    (extent : list float) : result Figure :=
  if negb (registered lib cmap) then Raise ValueError
  else if negb (valid_image X) then Raise TypeError
  else Ok {| im_data := X; im_origin := origin; im_aspect := aspect;
             im_cmap := cmap; im_extent := extent;
             im_clim := (None, None);
             ax_title := ""; ax_title_pad := None;
             ax_xlabel := ""; ax_ylabel := ""; colorbar := None |}.

(** [im.set_clim(vmin, vmax)].  Without a colour bar the limits given are
    stored, one given as [None] being left as it is.  With a colour bar the
    limits are shared with it, and are what the library makes of the
    request. *)
Definition set_clim (vmin vmax : option float) (fig : Figure)
  : result Figure :=
  match colorbar fig, im_clim fig with
  | Some _, (Some a, Some b) =>
      lims ← clim_update lib (a, b) vmin vmax;
      Ok (with_clim (Some lims.1, Some lims.2) fig)
  | _, _ =>
      Ok (with_clim
            (match vmin with Some v => Some v | None => (im_clim fig).1 end,
             match vmax with Some v => Some v | None => (im_clim fig).2 end)
            fig)
  end.

End WithLibrary.

End plt.

(** ** [ColorBarManager] *)

Module ColorBarManager.

(** The mappable of the manager is the image of the figure. *)
Record t : Type := mk {
  title : string;
  location : string
}.

Definition init (title : string) (location : option string) : t :=
  {| title := title; location := default "right"%string location |}.

(** The colour bar is attached to the figure and returned, unless the
    library cannot draw it; the current axes are saved before and restored
    after. *)
Definition create_colorbar (lib : plt.Library) (self : t) (fig : plt.Figure)
  : result (plt.Colorbar * plt.Figure) :=
  let cbar :=
    {| plt.cb_label := title self; plt.cb_location := location self;
       plt.cb_size := "5%"; plt.cb_pad := 0.05%float;
       plt.cb_extend := "both"; plt.cb_nbins := None |} in
  lims ← plt.colorbar_draw lib (plt.im_data fig) (plt.im_clim fig);
  Ok (cbar,
      plt.set_colorbar (Some cbar)
        (plt.with_clim (Some lims.1, Some lims.2) fig)).

End ColorBarManager.

(** ** The animation driver ([matplotlib.animation.FuncAnimation])

    With [frames = n] the frame function is called on [0, 1, ..., n - 1] in
    this order, and the writer renders and grabs the figure after each call.
    Without an [init_func], the first frame is drawn once more before, to
    set the figure up; that draw is not grabbed.  [save] first derives the
    frame rate of the file as [1000 / interval]. *)

Module animation.

Record FuncAnimation : Type := mk {
  func : nat -> plt.Figure -> result plt.Figure;
  frames : nat;
  interval : Z;
  repeat : bool;
  blit : bool;
  repeat_delay : Z
}.

(** What the writer receives: the file name, and the grabbed figures in
    the order of their production, each with the frame index it was drawn
    for. *)
Record Movie : Type := mk_movie {
  filename : string;
  grabbed : list (nat * plt.Figure)
}.

Definition init_draw (ani : FuncAnimation) (fig : plt.Figure)
  : result plt.Figure :=
  match seq 0 (frames ani) with
  | [] => Ok fig
  | i :: _ => func ani i fig
  end.

(** The loop of the writer: each frame is drawn, rendered and grabbed. *)
Fixpoint draw_frames (draw : plt.Figure -> option exn)
    (f : nat -> plt.Figure -> result plt.Figure)
    (idx : list nat) (fig : plt.Figure) : result (list (nat * plt.Figure)) :=
  match idx with
  | [] => Ok []
  | i :: idx' =>
      fig' ← f i fig;
      match draw fig' with
      | Some e => Raise e
      | None =>
          rest ← draw_frames draw f idx' fig';
          Ok ((i, fig') :: rest)
      end
  end.

(** The frames that the writer holds when the loop ends, whether it ends
    at the last frame or at the first error. *)
Fixpoint grabbed_before (draw : plt.Figure -> option exn)
    (f : nat -> plt.Figure -> result plt.Figure)
    (idx : list nat) (fig : plt.Figure) : list (nat * plt.Figure) :=
  match idx with
  | [] => []
  | i :: idx' =>
      match f i fig with
      | Raise _ => []
      | Ok fig' =>
          match draw fig' with
          | Some _ => []
          | None => (i, fig') :: grabbed_before draw f idx' fig'
          end
      end
  end.

Definition save (lib : plt.Library) (ani : FuncAnimation) (fig : plt.Figure)
    (filename : string) : result Movie :=
  if interval ani =? 0 then Raise ZeroDivisionError
  else
    match plt.writer_error lib filename (interval ani) with
    | Some e => Raise e
    | None =>
        fig ← init_draw ani fig;
        fs ← draw_frames (plt.draw_error lib) (func ani)
                         (seq 0 (frames ani)) fig;
        Ok {| filename := filename; grabbed := fs |}
    end.

(** What the writer holds when a call of [save] ends: the writer is closed
    on every way out of the loop, with the frames grabbed until then, all of
    them or those before the error that ended the call.  [None]: the writer
    was not started. *)
Definition written (lib : plt.Library) (ani : FuncAnimation)
    (fig : plt.Figure) (filename : string) : option Movie :=
  if interval ani =? 0 then None
  else
    match plt.writer_error lib filename (interval ani) with
    | Some _ => None
    | None =>
        Some {| filename := filename;
                grabbed :=
                  match init_draw ani fig with
                  | Raise _ => []
                  | Ok fig =>
                      grabbed_before (plt.draw_error lib) (func ani)
                                     (seq 0 (frames ani)) fig
                  end |}
    end.

End animation.

(** ** [AnimationCreator] *)

Module AnimationCreator.

Record t : Type := mk {
  header : gmap string float;
  cube : list np.ndarray;
  cube_axis : list float;
  xlabel : string;
  ylabel : string;
  cblabel : string;
  title : string;
  cmap : string;
  title_pad : float;
  vmin : option float;
  vmax : option float
}.

Definition default_cmap : string := "Spectral".

Definition set_vmax (v : option float) (self : t) : t :=
  {| header := header self; cube := cube self; cube_axis := cube_axis self;
     xlabel := xlabel self; ylabel := ylabel self; cblabel := cblabel self;
     title := title self; cmap := cmap self; title_pad := title_pad self;
     vmin := vmin self; vmax := v |}.

Definition set_vmin (v : option float) (self : t) : t :=
  {| header := header self; cube := cube self; cube_axis := cube_axis self;
     xlabel := xlabel self; ylabel := ylabel self; cblabel := cblabel self;
     title := title self; cmap := cmap self; title_pad := title_pad self;
     vmin := v; vmax := vmax self |}.

Definition is_None {A} (o : option A) : bool :=
  match o with None => true | Some _ => false end.

Definition init (header : gmap string float) (cube : list np.ndarray)
    (cube_axis : list float) (xlabel ylabel cblabel title cmap : string)
    (title_pad : float) (vmin vmax : option float) : result t :=
  let self :=
    {| header := header; cube := cube; cube_axis := cube_axis;
       xlabel := xlabel; ylabel := ylabel; cblabel := cblabel;
       title := title; cmap := cmap; title_pad := title_pad;
       vmin := vmin; vmax := vmax |} in
  if is_None (AnimationCreator.vmin self) || is_None (AnimationCreator.vmax self)
  then
    top ← np.amax_axis0 cube;
    hi ← np.amax top;
    let self := set_vmax (Some hi) self in
    bot ← np.amin_axis0 cube;
    lo ← np.amin bot;
    Ok (set_vmin (Some lo) self)
  else Ok self.

Definition title_prefix : string := "Faraday Depth Spectrum at ".
Definition title_suffix : string := " rad/m^2".

Section WithLibrary.

Variable lib : plt.Library.

(** The inner function [animate] of [create_animation]. *)
Definition animate (self : t) (i : nat) (fig : plt.Figure)
  : result plt.Figure :=
  arr ← getitem (cube self) i;
  phi_i ← getitem (cube_axis self) i;
  let fig :=
    plt.set_title (title_prefix +:+ F.format_4f phi_i +:+ title_suffix)
                  None fig in
  fig ← plt.set_data arr fig;
  plt.set_clim lib (vmin self) (vmax self) fig.

(** The first render (lines 116 to 123), from the axes that [config_axes]
    returned. *)
Definition first_image (self : t) (axes : DataConfig.axes)
  : result plt.Figure :=
  cv0 ← getitem (cube self) 0;
  plt.imshow lib cv0 "lower" "equal" (cmap self)
    [ DataConfig.axes_2 axes; (- DataConfig.axes_2 axes)%float;
      (- DataConfig.axes_3 axes)%float; DataConfig.axes_3 axes ].

(** The first render and its decoration (lines 116 to 132). *)
Definition initial_render (self : t) (axes : DataConfig.axes)
  : result plt.Figure :=
  im ← first_image self axes;
  let fig := plt.set_title (title self) (Some (title_pad self)) im in
  let fig := plt.set_xlabel (xlabel self) fig in
  let fig := plt.set_ylabel (ylabel self) fig in
  let colorbar_mgr := ColorBarManager.init (cblabel self) None in
  '(cb, fig) ← ColorBarManager.create_colorbar lib colorbar_mgr fig;
  let cb := plt.set_locator 3 cb in
  Ok (plt.set_colorbar (Some cb) fig).

Definition create_animation (self : t) (output_video : string)
    (fps interval : Z) (repeat : bool) : result animation.Movie :=
  cube0 ← getitem (cube self) 0;
  let data_config := DataConfig.init cube0 (header self) None in
  axes ← DataConfig.config_axes data_config;
  fig ← initial_render self axes;
  let ani :=
    {| animation.func := animate self;
       animation.frames := length (cube self);
       animation.interval := interval;
       animation.repeat := repeat;
       animation.blit := false;
       animation.repeat_delay := 1000 |} in
  animation.save lib ani fig output_video.

(** What the writer holds when a call of [create_animation] ends, if the
    writer was reached. *)
Definition written_video (self : t) (output_video : string)
    (fps interval : Z) (repeat : bool) : option animation.Movie :=
  match
    cube0 ← getitem (cube self) 0;
    axes ← DataConfig.config_axes
             (DataConfig.init cube0 (header self) None);
    initial_render self axes
  with
  | Raise _ => None
  | Ok fig =>
      animation.written lib
        {| animation.func := animate self;
           animation.frames := length (cube self);
           animation.interval := interval;
           animation.repeat := repeat;
           animation.blit := false;
           animation.repeat_delay := 1000 |} fig output_video
  end.

(** The script at the end of the module, for any data: build the creator
    with the defaults left as they are, then render. *)
Definition run (header : gmap string float) (cube : list np.ndarray)
    (cube_axis : list float) (xlabel ylabel cblabel title cmap : string)
    (title_pad : float) (vmin vmax : option float)
  : result animation.Movie :=
  animation_creator ← init header cube cube_axis xlabel ylabel cblabel
                           title cmap title_pad vmin vmax;
  create_animation animation_creator "dynamic_images.mp4" 30 50 false.

End WithLibrary.

End AnimationCreator.

(** ** The data of the script *)

Definition script_header : gmap string float :=
  {[ "cdelt1"%string := 0.5%float; "cdelt2"%string := 0.5%float;
     "crpix1"%string := 50%float; "crpix2"%string := 50%float ]}.

(** A frame of the shape of the script's, every pixel [v]. *)
Definition flat_frame (rows cols : nat) (v : float) : np.ndarray :=
  {| np.shape := [rows; cols]; np.data := List.repeat v (rows * cols) |}.

(** A table of the plotting library that knows the names of the module's
    catalogue and its default. *)
Definition some_registry (name : string) : bool :=
  bool_decide (name ∈ AnimationCreator.default_cmap
                      :: ColormapManager.get_colormaps ColormapManager.init).

(** A library for the examples: it knows the names of [some_registry],
    gives a colour bar the limits of its image, or the range of the data
    where they are not set ([0, 1] for no data), keeps the limits it is
    asked for, and draws and writes everything. *)
Definition some_library : plt.Library :=
  {| plt.registered := some_registry;
     plt.colorbar_draw := fun a clim =>
       match clim, np.amin a, np.amax a with
       | (Some lo, Some hi), _, _ => Ok (lo, hi)
       | _, Ok lo, Ok hi => Ok (lo, hi)
       | _, _, _ => Ok (0%float, 1%float)
       end;
     plt.clim_update := fun old vmin vmax =>
       Ok (default old.1 vmin, default old.2 vmax);
     plt.draw_error := fun _ => None;
     plt.writer_error := fun _ _ => None |}.


(** * The vocabulary of the properties *)

(** [v] bounds [e] from above, or is the NaN that an extremum of data
    with a NaN is. *)
Definition below (e v : float) : Prop :=
  PrimFloat.is_nan v = true \/ (e <=? v)%float = true.

Definition above (e v : float) : Prop :=
  PrimFloat.is_nan v = true \/ (v <=? e)%float = true.


(** The elementwise reduction of a stack of equally long rows by [f]. *)
Definition fold_rows (f : float -> float -> float) (rows : list np.ndarray)
    (acc : list float) : list float :=
  fold_left (fun acc c => zip_with f acc (np.data c)) rows acc.

(** All the elements of all the frames of a cube. *)
Definition elements (cube : list np.ndarray) : list float :=
  concat (map np.data cube).

(** [v] is the greatest element of [l]: an element of [l] above all the
    others; the NaN when [l] has one, as no order relates a NaN. *)
Definition global_max (l : list float) (v : float) : Prop :=
  v ∈ l /\
  ((forall e, e ∈ l -> PrimFloat.is_nan e = false) ->
   forall e, e ∈ l -> (e <=? v)%float = true) /\
  ((exists e, e ∈ l /\ PrimFloat.is_nan e = true) -> PrimFloat.is_nan v = true).

Definition global_min (l : list float) (v : float) : Prop :=
  v ∈ l /\
  ((forall e, e ∈ l -> PrimFloat.is_nan e = false) ->
   forall e, e ∈ l -> (v <=? e)%float = true) /\
  ((exists e, e ∈ l /\ PrimFloat.is_nan e = true) -> PrimFloat.is_nan v = true).

(** A cube that numpy can stack: frames of one shape, each with the
    elements its shape announces. *)
Definition stackable (cube : list np.ndarray) : Prop :=
  Forall np.wf cube /\
  forall c c', c ∈ cube -> c' ∈ cube -> np.shape c = np.shape c'.

(** The cube of the specification's example: one frame holding [-5] and
    [10], one holding [0] and [3]. *)
Definition example_cube : list np.ndarray :=
  [ {| np.shape := [1; 2]%nat; np.data := [-5; 10]%float |};
    {| np.shape := [1; 2]%nat; np.data := [0; 3]%float |} ].

(** ** Ranges *)










(** ** Figures *)

(** The colour bar that [create_animation] leaves on the figure: on the
    right, 5% wide, with the locator [MaxNLocator(nbins=3)]. *)
Definition animation_colorbar (self : AnimationCreator.t) : plt.Colorbar :=
  {| plt.cb_label := AnimationCreator.cblabel self;
     plt.cb_location := "right"; plt.cb_size := "5%";
     plt.cb_pad := 0.05%float; plt.cb_extend := "both";
     plt.cb_nbins := Some 3%nat |}.

(** The extent that [create_animation] gives to the image. *)
Definition animation_extent (axes : DataConfig.axes) : list float :=
  [ DataConfig.axes_2 axes; (- DataConfig.axes_2 axes)%float;
    (- DataConfig.axes_3 axes)%float; DataConfig.axes_3 axes ].

(** What the first render fixes of a figure: the placement of the image,
    its colormap, the labels of the axes and the colour bar. *)
Definition decorated (self : AnimationCreator.t) (axes : DataConfig.axes)
    (fig : plt.Figure) : Prop :=
  plt.im_extent fig = animation_extent axes /\
  plt.im_origin fig = "lower"%string /\
  plt.im_aspect fig = "equal"%string /\
  plt.im_cmap fig = AnimationCreator.cmap self /\
  plt.ax_xlabel fig = AnimationCreator.xlabel self /\
  plt.ax_ylabel fig = AnimationCreator.ylabel self /\
  plt.colorbar fig = Some (animation_colorbar self).

(** The title of the frame at depth [phi]. *)
Definition frame_title (phi : float) : string :=
  ("Faraday Depth Spectrum at " +:+ F.format_4f phi +:+ " rad/m^2")%string.

(** The figure after the update of a frame that shows [arr] at depth
    [phi], when the library has left the limits [clim]. *)
Definition frame_figure (arr : np.ndarray) (phi : float)
    (clim : float * float) (fig : plt.Figure) : plt.Figure :=
  {| plt.im_data := arr;
     plt.im_origin := plt.im_origin fig;
     plt.im_aspect := plt.im_aspect fig;
     plt.im_cmap := plt.im_cmap fig;
     plt.im_extent := plt.im_extent fig;
     plt.im_clim := (Some clim.1, Some clim.2);
     plt.ax_title := frame_title phi;
     plt.ax_title_pad := None;
     plt.ax_xlabel := plt.ax_xlabel fig;
     plt.ax_ylabel := plt.ax_ylabel fig;
     plt.colorbar := plt.colorbar fig |}.

(** The figure that the first render leaves around the first frame, with
    the limits [clim]. *)
Definition first_figure (self : AnimationCreator.t) (c0 : np.ndarray)
    (axes : DataConfig.axes) (clim : float * float) : plt.Figure :=
  {| plt.im_data := c0;
     plt.im_origin := "lower";
     plt.im_aspect := "equal";
     plt.im_cmap := AnimationCreator.cmap self;
     plt.im_extent := animation_extent axes;
     plt.im_clim := (Some clim.1, Some clim.2);
     plt.ax_title := AnimationCreator.title self;
     plt.ax_title_pad := Some (AnimationCreator.title_pad self);
     plt.ax_xlabel := AnimationCreator.xlabel self;
     plt.ax_ylabel := AnimationCreator.ylabel self;
     plt.colorbar := Some (animation_colorbar self) |}.

(** [fig] is a figure of frame [i] of the animation: it shows [cube[i]]
    under the title of [cube_axis[i]], in the decoration of the first
    render, with the limits that the library made of the request for
    [(vmin, vmax)]. *)
Definition frame_of (lib : plt.Library) (self : AnimationCreator.t)
    (axes : DataConfig.axes) (i : nat) (fig : plt.Figure) : Prop :=
  exists arr phi old new,
    AnimationCreator.cube self !! i = Some arr /\
    AnimationCreator.cube_axis self !! i = Some phi /\
    plt.im_data fig = arr /\
    plt.ax_title fig = frame_title phi /\
    plt.ax_title_pad fig = None /\
    decorated self axes fig /\
    plt.clim_update lib old (AnimationCreator.vmin self)
                    (AnimationCreator.vmax self) = Ok new /\
    plt.im_clim fig = (Some new.1, Some new.2).

(** The grabbed frames [fs] are figures of the frames [idx], in this
    order. *)
Definition frames_of (lib : plt.Library) (self : AnimationCreator.t)
    (axes : DataConfig.axes) (idx : list nat)
    (fs : list (nat * plt.Figure)) : Prop :=
  Forall2 (fun i p => p.1 = i /\ frame_of lib self axes i p.2) idx fs.

(** The inputs the data model of the module asks for: frames that are 2-D
    arrays, one depth per frame, a colormap the plotting library knows, and
    a header from which the axes can be laid out. *)
Definition valid_input (lib : plt.Library) (self : AnimationCreator.t)
  : Prop :=
  Forall (fun c => length (np.shape c) = 2%nat) (AnimationCreator.cube self) /\
  length (AnimationCreator.cube_axis self)
    = length (AnimationCreator.cube self) /\
  plt.registered lib (AnimationCreator.cmap self) = true /\
  forall c0, AnimationCreator.cube self !! 0%nat = Some c0 ->
    exists axes,
      DataConfig.config_axes
        (DataConfig.init c0 (AnimationCreator.header self) None) = Ok axes.

(** The library goes along with the animation: it draws the colour bar of
    the first frame, takes every request for [(vmin, vmax)], renders every
    figure of a frame, and writes the file at a frame rate of
    [1000 / interval]. *)
Definition library_accepts (lib : plt.Library) (self : AnimationCreator.t)
    (output_video : string) (interval : Z) : Prop :=
  interval <> 0 /\
  plt.writer_error lib output_video interval = None /\
  (forall c0, AnimationCreator.cube self !! 0%nat = Some c0 ->
     exists lims, plt.colorbar_draw lib c0 (None, None) = Ok lims) /\
  (forall old, exists new,
     plt.clim_update lib old (AnimationCreator.vmin self)
                     (AnimationCreator.vmax self) = Ok new) /\
  (forall c0 axes i fig,
     AnimationCreator.cube self !! 0%nat = Some c0 ->
     DataConfig.config_axes
       (DataConfig.init c0 (AnimationCreator.header self) None) = Ok axes ->
     frame_of lib self axes i fig -> plt.draw_error lib fig = None).


(** ** Decimal numerals *)

(** The value of a decimal digit. *)
Definition digit_value (c : ascii) : option Z :=
  let n := nat_of_ascii c in
  if (48 <=? n)%nat && (n <=? 57)%nat then Some (Z.of_nat n - 48) else None.

(** The number that a string of decimal digits denotes, after the digits
    of [acc]. *)
Fixpoint digits_value (acc : Z) (s : string) : option Z :=
  match s with
  | EmptyString => Some acc
  | String c s' =>
      match digit_value c with
      | Some d => digits_value (10 * acc + d) s'
      | None => None
      end
  end.

(** A numeral of a natural number: digits, with no zero in front of
    another digit. *)
Definition numeral (s : string) (n : Z) : Prop :=
  digits_value 0 s = Some n /\
  match s with
  | EmptyString => False
  | String c s' => c = "0"%char -> s' = EmptyString
  end.

(** [q / 10^4] is the decimal with four places nearest to [m * 2^e], the
    one with an even last digit when two are equally near. *)
Definition nearest_4 (m e q : Z) : Prop :=
  let num := m * 10000 * 2 ^ Z.max e 0 in
  let den := 2 ^ Z.max (- e) 0 in
  2 * Z.abs (q * den - num) <= den /\
  (2 * Z.abs (q * den - num) = den -> Z.even q = true).

(** [s] is the float [phi] printed with four decimals: the sign when the
    sign bit is set, the numeral of the integer part, a point and four
    digits, which together denote the decimal nearest to [phi]. *)
Definition printed_4f (phi : float) (s : string) : Prop :=
  match Prim2SF phi with
  | S754_nan => s = "nan"%string
  | S754_infinity sg => s = (if sg then "-inf" else "inf")%string
  | S754_zero sg => s = (if sg then "-0.0000" else "0.0000")%string
  | S754_finite sg m e =>
      exists (int_part frac_part : string) (a b : Z),
        s = ((if sg then "-" else "") +:+ int_part +:+ "." +:+ frac_part)%string /\
        numeral int_part a /\
        String.length frac_part = 4%nat /\
        digits_value 0 frac_part = Some b /\
        nearest_4 (Z.pos m) e (a * 10000 + b)
  end.

(** ** Example inputs *)

(** A library that knows no colormap at all. *)
Definition bare_library : plt.Library :=
  {| plt.registered := fun _ => false;
     plt.colorbar_draw := plt.colorbar_draw some_library;
     plt.clim_update := plt.clim_update some_library;
     plt.draw_error := plt.draw_error some_library;
     plt.writer_error := plt.writer_error some_library |}.

(** The creator of the script, around one frame of 50 by 50 pixels. *)
Definition script_creator : AnimationCreator.t :=
  AnimationCreator.mk script_header [flat_frame 50 50 0.25] [-10]%float
    "X-axis" "Y-axis" "Color Bar" "Sample Animation" "plasma" 0%float
    (Some 0.25%float) (Some 0.25%float).

(** A creator with two frames. *)
Definition two_frames : AnimationCreator.t :=
  AnimationCreator.mk script_header
    [flat_frame 2 2 0.5; flat_frame 2 2 1.5] [-10; 10]%float
    "X-axis" "Y-axis" "Color Bar" "Sample Animation" "plasma" 0%float
    (Some 0.5%float) (Some 1.5%float).

(** A creator that keeps the default colormap. *)
Definition spectral_creator : AnimationCreator.t :=
  AnimationCreator.mk script_header [flat_frame 2 2 0.5] [-10]%float
    "X-axis" "Y-axis" "Color Bar" "Sample Animation"
    AnimationCreator.default_cmap 0%float (Some 0.5%float) (Some 0.5%float).


(** Two floats that compare equal, or are both the NaN. *)
Definition same_value (a b : float) : Prop :=
  (a =? b)%float = true \/
  (PrimFloat.is_nan a = true /\ PrimFloat.is_nan b = true).

(** No element of [l] is a NaN. *)
Definition no_nan (l : list float) : Prop :=
  forall e, e ∈ l -> PrimFloat.is_nan e = false.

(** The keys of the header in the order in which [config_axes] reads
    them (lines 52, 53, 56 and 57), and the first of them that a header
    lacks. *)
Definition header_keys : list string :=
  [ "cdelt1"; "cdelt2"; "crpix1"; "crpix2" ]%string.

Definition first_missing (header : gmap string float) : option string :=
  List.find (fun k => match header !! k with None => true | Some _ => false end)
            header_keys.

(** A creator with another sequence of depths. *)
Definition with_cube_axis (cube_axis : list float) (self : AnimationCreator.t)
  : AnimationCreator.t :=
  AnimationCreator.mk
    (AnimationCreator.header self) (AnimationCreator.cube self) cube_axis
    (AnimationCreator.xlabel self) (AnimationCreator.ylabel self)
    (AnimationCreator.cblabel self) (AnimationCreator.title self)
    (AnimationCreator.cmap self) (AnimationCreator.title_pad self)
    (AnimationCreator.vmin self) (AnimationCreator.vmax self).

(** A creator with another title and another padding of the title. *)
Definition with_title (title : string) (title_pad : float)
    (self : AnimationCreator.t) : AnimationCreator.t :=
  AnimationCreator.mk
    (AnimationCreator.header self) (AnimationCreator.cube self)
    (AnimationCreator.cube_axis self)
    (AnimationCreator.xlabel self) (AnimationCreator.ylabel self)
    (AnimationCreator.cblabel self) title
    (AnimationCreator.cmap self) title_pad
    (AnimationCreator.vmin self) (AnimationCreator.vmax self).

(** A creator whose depths stop before its frames do. *)
Definition short_axis_creator : AnimationCreator.t :=
  AnimationCreator.mk script_header
    [flat_frame 2 2 0.5; flat_frame 2 2 1.5; flat_frame 2 2 2.5] [-10]%float
    "X-axis" "Y-axis" "Color Bar" "Sample Animation" "plasma" 0%float
    (Some 0.5%float) (Some 2.5%float).

(** * Properties *)

Lemma bind_Ok {A B} (a : A) (k : A -> result B) : (Ok a ≫= k) = k a.
Proof. reflexivity. Qed.

Lemma bind_Raise {A B} (e : exn) (k : A -> result B) :
  (Raise e ≫= k) = Raise e.
Proof. reflexivity. Qed.



(** ** The order of binary64 values *)

Module FloatOrder.

Lemma SFleb_refl f : f <> S754_nan -> SFleb f f = true.
Proof.
  unfold SFleb. destruct f as [s | s | | s m e]; simpl; try congruence.
  - destruct s; reflexivity.
  - intros _. rewrite Z.compare_refl, Pos.compare_cont_refl.
    destruct s; reflexivity.
Qed.

Ltac cmp_cases :=
  repeat match goal with
  | |- context [Pos.compare_cont Eq ?a ?b] =>
      change (Pos.compare_cont Eq a b) with (Pos.compare a b)
  | H : context [Pos.compare_cont Eq ?a ?b] |- _ =>
      change (Pos.compare_cont Eq a b) with (Pos.compare a b) in H
  | |- context [Z.compare ?a ?b] => destruct (Z.compare_spec a b); simpl
  | H : context [Z.compare ?a ?b] |- _ =>
      destruct (Z.compare_spec a b); simpl in H
  | |- context [Pos.compare ?a ?b] => destruct (Pos.compare_spec a b); simpl
  | H : context [Pos.compare ?a ?b] |- _ =>
      destruct (Pos.compare_spec a b); simpl in H
  end.

Lemma SFleb_total f g :
  f <> S754_nan -> g <> S754_nan -> SFleb f g = true \/ SFleb g f = true.
Proof.
  unfold SFleb.
  destruct f as [[] | [] | | [] m e], g as [[] | [] | | [] m' e']; simpl;
    try congruence; intros _ _; auto; cmp_cases; auto; try lia.
Qed.

Lemma SFleb_trans f g h :
  SFleb f g = true -> SFleb g h = true -> SFleb f h = true.
Proof.
  unfold SFleb.
  destruct f as [[] | [] | | [] m e], g as [[] | [] | | [] m' e'],
           h as [[] | [] | | [] m'' e''];
    simpl; try congruence; try reflexivity; intros H1 H2;
    cmp_cases; try congruence; try reflexivity; try lia.
Qed.

Lemma SFleb_nan f g : SFleb f g = true -> f <> S754_nan /\ g <> S754_nan.
Proof.
  unfold SFleb. destruct f, g; simpl; intros H; split; congruence.
Qed.

Lemma is_nan_Prim2SF x : PrimFloat.is_nan x = true <-> Prim2SF x = S754_nan.
Proof.
  unfold PrimFloat.is_nan. rewrite FloatAxioms.eqb_spec.
  split.
  - intros H. destruct (Prim2SF x) as [s | s | | s m e] eqn:E; try reflexivity;
      exfalso; revert H; unfold SFeqb; simpl.
    + destruct s; discriminate.
    + destruct s; discriminate.
    + rewrite Z.compare_refl, Pos.compare_cont_refl. destruct s; discriminate.
  - intros ->. reflexivity.
Qed.

Lemma not_nan_Prim2SF x : PrimFloat.is_nan x = false <-> Prim2SF x <> S754_nan.
Proof.
  rewrite <- is_nan_Prim2SF. destruct (PrimFloat.is_nan x); split; congruence.
Qed.

Lemma leb_refl x : PrimFloat.is_nan x = false -> (x <=? x)%float = true.
Proof.
  rewrite not_nan_Prim2SF, FloatAxioms.leb_spec. apply SFleb_refl.
Qed.

Lemma leb_total x y :
  PrimFloat.is_nan x = false -> PrimFloat.is_nan y = false ->
  (x <=? y)%float = true \/ (y <=? x)%float = true.
Proof.
  rewrite !not_nan_Prim2SF, !FloatAxioms.leb_spec. apply SFleb_total.
Qed.

Lemma leb_trans x y z :
  (x <=? y)%float = true -> (y <=? z)%float = true -> (x <=? z)%float = true.
Proof. rewrite !FloatAxioms.leb_spec. apply SFleb_trans. Qed.

Lemma leb_not_nan x y :
  (x <=? y)%float = true ->
  PrimFloat.is_nan x = false /\ PrimFloat.is_nan y = false.
Proof.
  rewrite !not_nan_Prim2SF, FloatAxioms.leb_spec. apply SFleb_nan.
Qed.

Lemma SFltb_leb f g : SFltb f g = true -> SFleb f g = true.
Proof.
  unfold SFltb, SFleb. destruct (SFcompare f g) as [[] |]; congruence.
Qed.

Lemma SFleb_of_not_ltb f g :
  f <> S754_nan -> g <> S754_nan -> SFltb g f = false -> SFleb f g = true.
Proof.
  unfold SFleb, SFltb.
  destruct f as [[] | [] | | [] m e], g as [[] | [] | | [] m' e']; simpl;
    try congruence; intros _ _; auto; cmp_cases; simpl; auto;
    try congruence; try lia.
Qed.

Lemma ltb_leb x y : (x <? y)%float = true -> (x <=? y)%float = true.
Proof. rewrite FloatAxioms.ltb_spec, FloatAxioms.leb_spec. apply SFltb_leb. Qed.

Lemma leb_of_not_ltb x y :
  PrimFloat.is_nan x = false -> PrimFloat.is_nan y = false ->
  (y <? x)%float = false -> (x <=? y)%float = true.
Proof.
  rewrite !not_nan_Prim2SF, FloatAxioms.ltb_spec, FloatAxioms.leb_spec.
  apply SFleb_of_not_ltb.
Qed.

Lemma below_trans e a v : below e a -> below a v -> below e v.
Proof.
  intros [Ha | Hea] [Hv | Hav]; try (left; assumption).
  - apply leb_not_nan in Hav. destruct Hav; congruence.
  - right. eapply leb_trans; eassumption.
Qed.

Lemma above_trans e a v : above e a -> above a v -> above e v.
Proof.
  intros [Ha | Hea] [Hv | Hav]; try (left; assumption).
  - apply leb_not_nan in Hav. destruct Hav; congruence.
  - right. eapply leb_trans; eassumption.
Qed.

Lemma maximum_pick a b : np.maximum a b = a \/ np.maximum a b = b.
Proof. unfold np.maximum. destruct (_ || _); auto. Qed.

Lemma minimum_pick a b : np.minimum a b = a \/ np.minimum a b = b.
Proof. unfold np.minimum. destruct (_ || _); auto. Qed.

Lemma maximum_below_l a b : below a (np.maximum a b).
Proof.
  unfold np.maximum, below.
  destruct (PrimFloat.is_nan a) eqn:Na.
  { rewrite orb_true_r. auto. }
  rewrite orb_false_r. destruct (b <? a)%float eqn:L.
  - right. apply leb_refl, Na.
  - destruct (PrimFloat.is_nan b) eqn:Nb; [auto |].
    right. apply leb_of_not_ltb; assumption.
Qed.

Lemma maximum_below_r a b : below b (np.maximum a b).
Proof.
  unfold np.maximum, below.
  destruct (PrimFloat.is_nan a) eqn:Na.
  { rewrite orb_true_r. auto. }
  rewrite orb_false_r. destruct (b <? a)%float eqn:L.
  - right. apply ltb_leb, L.
  - destruct (PrimFloat.is_nan b) eqn:Nb; [auto |].
    right. apply leb_refl, Nb.
Qed.

Lemma minimum_above_l a b : above a (np.minimum a b).
Proof.
  unfold np.minimum, above.
  destruct (PrimFloat.is_nan a) eqn:Na.
  { rewrite orb_true_r. auto. }
  rewrite orb_false_r. destruct (a <? b)%float eqn:L.
  - right. apply leb_refl, Na.
  - destruct (PrimFloat.is_nan b) eqn:Nb; [auto |].
    right. apply leb_of_not_ltb; assumption.
Qed.

Lemma minimum_above_r a b : above b (np.minimum a b).
Proof.
  unfold np.minimum, above.
  destruct (PrimFloat.is_nan a) eqn:Na.
  { rewrite orb_true_r. auto. }
  rewrite orb_false_r. destruct (a <? b)%float eqn:L.
  - right. apply ltb_leb, L.
  - destruct (PrimFloat.is_nan b) eqn:Nb; [auto |].
    right. apply leb_refl, Nb.
Qed.

(** Scaling by [1.0] changes no value: the product is exact. *)
Lemma SFmul_one f : valid_binary f = true -> SF64mul f (Prim2SF 1) = f.
Proof.
  change (Prim2SF 1) with (S754_finite false 4503599627370496 (-52)).
  unfold SF64mul.
  destruct f as [s | s | | s m e]; simpl; intros Hv;
    try (rewrite xorb_false_r; reflexivity); try reflexivity.
  rewrite xorb_false_r.
  unfold valid_binary, SpecFloat.valid_binary, bounded, canonical_mantissa in Hv.
  apply andb_true_iff in Hv as [Hc Hb]. apply Z.eqb_eq in Hc.
  rewrite (Pos.mul_comm m).
  unfold binary_round_aux, shr_fexp.
  cbv [SpecFloat.shr_record_of_loc SpecFloat.Zdigits2].
  match goal with
  | |- context [(?a * m)%positive] =>
      let t := eval cbv in (fun m => (a * m)%positive) in
      change (a * m)%positive with (t m); cbv beta
  end.
  cbn [digits2_pos].
  match goal with
  | |- context [fexp prec emax (Z.pos ?p + (e + -52)) - (e + -52)] =>
      assert (Hp : Z.pos p = Z.pos (digits2_pos m) + 52) by lia;
      replace (fexp prec emax (Z.pos p + (e + -52)) - (e + -52)) with 52
        by (rewrite Hp;
            replace (Z.pos (digits2_pos m) + 52 + (e + -52))
              with (Z.pos (digits2_pos m) + e) by lia;
            rewrite Hc; lia);
      clear Hp
  end.
  cbv [SpecFloat.shr SpecFloat.iter_pos SpecFloat.shr_1 orb SpecFloat.shr_m
       SpecFloat.loc_of_shr_record SpecFloat.round_nearest_even].
  replace (e + -52 + 52) with e by lia.
  rewrite Hc, Z.sub_diag. cbv [SpecFloat.shr SpecFloat.shr_m].
  rewrite Hb. reflexivity.
Qed.

Lemma mul_one (x : float) : (x * 1)%float = x.
Proof.
  apply Prim2SF_inj. rewrite FloatAxioms.mul_spec.
  apply SFmul_one, Prim2SF_valid.
Qed.

End FloatOrder.

(** ** Reductions that select an element *)

Section Selection.

Variable f : float -> float -> float.
Variable bound : float -> float -> Prop.

Hypothesis f_pick : forall a b, f a b = a \/ f a b = b.
Hypothesis bound_l : forall a b, bound a (f a b).
Hypothesis bound_r : forall a b, bound b (f a b).
Hypothesis bound_trans : forall e a v, bound e a -> bound a v -> bound e v.

Lemma fold_pick xs : forall x, fold_left f xs x ∈ x :: xs.
Proof.
  induction xs as [| y ys IH]; intros x; simpl.
  - apply list_elem_of_here.
  - specialize (IH (f x y)). apply elem_of_cons in IH as [E | IH].
    + rewrite E. destruct (f_pick x y) as [-> | ->].
      * apply list_elem_of_here.
      * apply list_elem_of_further, list_elem_of_here.
    + do 2 apply list_elem_of_further. exact IH.
Qed.

Lemma fold_bound_acc xs : forall x, bound x (fold_left f xs x).
Proof.
  induction xs as [| y ys IH]; intros x; simpl.
  - destruct (f_pick x x) as [E | E]; rewrite <- E at 2; apply bound_l.
  - eapply bound_trans; [apply bound_l | apply IH].
Qed.

Lemma fold_bound xs : forall x e, e ∈ x :: xs -> bound e (fold_left f xs x).
Proof.
  induction xs as [| y ys IH]; intros x e He.
  - apply list_elem_of_singleton in He as ->. apply fold_bound_acc.
  - simpl. apply elem_of_cons in He as [-> | He].
    + eapply bound_trans; [apply bound_l | apply fold_bound_acc].
    + apply elem_of_cons in He as [-> | He].
      * eapply bound_trans; [apply bound_r | apply fold_bound_acc].
      * apply IH. apply list_elem_of_further, He.
Qed.

Lemma zip_pick (a b : list float) v :
  v ∈ zip_with f a b -> v ∈ a \/ v ∈ b.
Proof.
  intros H. apply elem_of_lookup_zip_with in H as (i & x & y & -> & Hx & Hy).
  destruct (f_pick x y) as [-> | ->].
  - left. eapply list_elem_of_lookup_2, Hx.
  - right. eapply list_elem_of_lookup_2, Hy.
Qed.

Lemma zip_bound_l (a b : list float) e :
  length a = length b -> e ∈ a -> exists v, v ∈ zip_with f a b /\ bound e v.
Proof.
  intros Hlen He. apply list_elem_of_lookup_1 in He as [i Hi].
  destruct (lookup_lt_is_Some_2 b i) as [y Hy].
  { rewrite <- Hlen. eapply lookup_lt_Some, Hi. }
  exists (f e y). split; [| apply bound_l].
  apply elem_of_lookup_zip_with. eauto 6.
Qed.

Lemma zip_bound_r (a b : list float) e :
  length a = length b -> e ∈ b -> exists v, v ∈ zip_with f a b /\ bound e v.
Proof.
  intros Hlen He. apply list_elem_of_lookup_1 in He as [i Hi].
  destruct (lookup_lt_is_Some_2 a i) as [x Hx].
  { rewrite Hlen. eapply lookup_lt_Some, Hi. }
  exists (f x e). split; [| apply bound_r].
  apply elem_of_lookup_zip_with. eauto 6.
Qed.

Lemma fold_rows_length n rows : forall acc,
  length acc = n -> Forall (fun c => length (np.data c) = n) rows ->
  length (fold_rows f rows acc) = n.
Proof.
  induction rows as [| c rows IH]; intros acc Hacc Hrows; simpl; [exact Hacc |].
  inversion Hrows; subst. apply IH; [| assumption].
  rewrite length_zip_with. lia.
Qed.

Lemma fold_rows_pick rows : forall acc v,
  v ∈ fold_rows f rows acc -> v ∈ acc ++ concat (map np.data rows).
Proof.
  induction rows as [| c rows IH]; intros acc v Hv; simpl in *.
  - rewrite app_nil_r. exact Hv.
  - apply IH in Hv. apply elem_of_app in Hv as [Hv | Hv].
    + apply zip_pick in Hv as [Hv | Hv].
      * apply elem_of_app. left. exact Hv.
      * apply elem_of_app. right. apply elem_of_app. left. exact Hv.
    + apply elem_of_app. right. apply elem_of_app. right. exact Hv.
Qed.

Lemma fold_rows_bound n rows : forall acc e,
  length acc = n -> Forall (fun c => length (np.data c) = n) rows ->
  e ∈ acc ++ concat (map np.data rows) ->
  exists v, v ∈ fold_rows f rows acc /\ bound e v.
Proof.
  induction rows as [| c rows IH]; intros acc e Hacc Hrows He; simpl in *.
  - rewrite app_nil_r in He. exists e. split; [exact He |].
    destruct (f_pick e e) as [E | E]; rewrite <- E at 2; apply bound_l.
  - inversion Hrows as [| ? ? Hc Hrows']; subst.
    assert (Hz : length (zip_with f acc (np.data c)) = length acc).
    { rewrite length_zip_with. lia. }
    apply elem_of_app in He as [He | He];
      [| apply elem_of_app in He as [He | He]].
    + destruct (zip_bound_l acc (np.data c) e) as (v & Hv & Hev);
        [congruence | assumption |].
      destruct (IH _ v Hz Hrows') as (w & Hw & Hvw).
      { apply elem_of_app. left. exact Hv. }
      exists w. split; [exact Hw | eapply bound_trans; eassumption].
    + destruct (zip_bound_r acc (np.data c) e) as (v & Hv & Hev);
        [congruence | assumption |].
      destruct (IH _ v Hz Hrows') as (w & Hw & Hvw).
      { apply elem_of_app. left. exact Hv. }
      exists w. split; [exact Hw | eapply bound_trans; eassumption].
    + apply (IH _ e Hz Hrows'). apply elem_of_app. right. exact He.
Qed.

End Selection.

(** ** The colour scale of [AnimationCreator.__init__] *)

Lemma below_global_max l v :
  v ∈ l -> (forall e, e ∈ l -> below e v) -> global_max l v.
Proof.
  intros Hv Hb. split; [exact Hv | split].
  - intros Hnan e He. destruct (Hb e He) as [N | L]; [| exact L].
    rewrite (Hnan v Hv) in N. discriminate.
  - intros (e & He & Ne). destruct (Hb e He) as [N | L]; [exact N |].
    apply FloatOrder.leb_not_nan in L. destruct L; congruence.
Qed.

Lemma above_global_min l v :
  v ∈ l -> (forall e, e ∈ l -> above e v) -> global_min l v.
Proof.
  intros Hv Hb. split; [exact Hv | split].
  - intros Hnan e He. destruct (Hb e He) as [N | L]; [| exact L].
    rewrite (Hnan v Hv) in N. discriminate.
  - intros (e & He & Ne). destruct (Hb e He) as [N | L]; [exact N |].
    apply FloatOrder.leb_not_nan in L. destruct L; congruence.
Qed.

Lemma stackable_cons c0 rest :
  stackable (c0 :: rest) ->
  forallb (fun c => bool_decide (np.shape c = np.shape c0)) rest = true /\
  Forall (fun c => length (np.data c) = length (np.data c0)) rest.
Proof.
  intros [Hwf Hsh]. split.
  - apply forallb_forall. intros c Hc. apply bool_decide_eq_true.
    apply Hsh; [right | left]. apply list_elem_of_In, Hc.
  - apply Forall_forall. intros c Hc.
    assert (Hc' : c ∈ c0 :: rest) by (right; exact Hc).
    pose proof (proj1 (Forall_forall _ _) Hwf c Hc') as W.
    pose proof (proj1 (Forall_forall _ _) Hwf c0 (list_elem_of_here _ _)) as W0.
    unfold np.wf in *. rewrite W, W0.
    f_equal. apply Hsh; [exact Hc' | left].
Qed.

Lemma elements_nil_data c0 rest :
  Forall (fun c => length (np.data c) = length (np.data c0)) rest ->
  np.data c0 = [] -> elements (c0 :: rest) = [].
Proof.
  intros Hlen H0. unfold elements. simpl. rewrite H0. simpl.
  induction Hlen as [| c cs Hc _ IH]; simpl; [reflexivity |].
  rewrite H0 in Hc. apply length_zero_iff_nil in Hc. rewrite Hc. exact IH.
Qed.

Section TwoStage.

Variable f : float -> float -> float.
Variable bound : float -> float -> Prop.

Hypothesis f_pick : forall a b, f a b = a \/ f a b = b.
Hypothesis bound_l : forall a b, bound a (f a b).
Hypothesis bound_r : forall a b, bound b (f a b).
Hypothesis bound_trans : forall e a v, bound e a -> bound a v -> bound e v.

(** Reducing along the first axis and then over what is left selects an
    element of the cube that bounds all the others. *)
Lemma reduce_twice cube :
  stackable cube -> elements cube <> [] ->
  exists top v,
    np.reduce_axis0 f cube = Ok top /\ np.reduce f (np.data top) = Ok v /\
    v ∈ elements cube /\ forall e, e ∈ elements cube -> bound e v.
Proof.
  intros Hst Hne. destruct cube as [| c0 rest]; [exfalso; apply Hne; reflexivity |].
  destruct (stackable_cons _ _ Hst) as [Hsh Hlen].
  unfold np.reduce_axis0. rewrite Hsh.
  change (fold_left (fun acc c => zip_with f acc (np.data c)) rest (np.data c0))
    with (fold_rows f rest (np.data c0)).
  pose proof (fold_rows_length f (length (np.data c0)) rest (np.data c0)
                eq_refl Hlen) as Hm.
  pose proof (fold_rows_pick f f_pick rest (np.data c0)) as Hpick.
  pose proof (fun e => fold_rows_bound f bound f_pick bound_l bound_r
                bound_trans (length (np.data c0)) rest (np.data c0) e
                eq_refl Hlen) as Hbound.
  destruct (fold_rows f rest (np.data c0)) as [| x xs].
  { exfalso. apply Hne. apply elements_nil_data; [exact Hlen |].
    apply length_zero_iff_nil. simpl in Hm. lia. }
  eexists. exists (fold_left f xs x). simpl. repeat split.
  - apply Hpick, fold_pick, f_pick.
  - intros e He. destruct (Hbound e He) as (v & Hv & Hev).
    eapply bound_trans; [exact Hev |].
    apply (fold_bound f bound f_pick bound_l bound_r bound_trans); exact Hv.
Qed.

End TwoStage.

(** C2: when a bound is missing, [__init__] replaces both by the extrema of
    the whole cube, whatever the caller gave for the other one. *)
Theorem init_global_extrema
    (header : gmap string float) (cube : list np.ndarray)
    (cube_axis : list float) (xlabel ylabel cblabel title cmap : string)
    (title_pad : float) (vmin vmax : option float) :
  stackable cube -> elements cube <> [] ->
  vmin = None \/ vmax = None ->
  exists lo hi,
    AnimationCreator.init header cube cube_axis xlabel ylabel cblabel title
                          cmap title_pad vmin vmax
    = Ok (AnimationCreator.mk header cube cube_axis xlabel ylabel cblabel
                              title cmap title_pad (Some lo) (Some hi)) /\
    global_min (elements cube) lo /\ global_max (elements cube) hi.
Proof.
  intros Hst Hne Hmiss.
  destruct (reduce_twice np.maximum below
              FloatOrder.maximum_pick FloatOrder.maximum_below_l
              FloatOrder.maximum_below_r FloatOrder.below_trans cube Hst Hne)
    as (top & hi & Htop & Hhi & Hin_hi & Hb_hi).
  destruct (reduce_twice np.minimum above
              FloatOrder.minimum_pick FloatOrder.minimum_above_l
              FloatOrder.minimum_above_r FloatOrder.above_trans cube Hst Hne)
    as (bot & lo & Hbot & Hlo & Hin_lo & Hb_lo).
  exists lo, hi. split; [| split].
  - unfold AnimationCreator.init. simpl.
    assert (Hcond : AnimationCreator.is_None vmin || AnimationCreator.is_None vmax = true).
    { destruct Hmiss as [-> | ->]; simpl; [reflexivity | apply orb_true_r]. }
    rewrite Hcond.
    unfold np.amax_axis0, np.amin_axis0, np.amax, np.amin.
    rewrite Htop. simpl. rewrite Hhi. simpl.
    rewrite Hbot. simpl. rewrite Hlo. reflexivity.
  - apply above_global_min; assumption.
  - apply below_global_max; assumption.
Qed.

Example init_example_cube :
  AnimationCreator.init script_header example_cube [0; 1]%float
                        "" "" "" "" "plasma" 0%float (Some 2%float) None
  = Ok (AnimationCreator.mk script_header example_cube [0; 1]%float
                            "" "" "" "" "plasma" 0%float
                            (Some (-5)%float) (Some 10%float)).
Proof. vm_compute. reflexivity. Qed.

Lemma init_global_extrema_witness :
  stackable example_cube /\ elements example_cube <> [] /\
  exists lo hi,
    AnimationCreator.init script_header example_cube [0; 1]%float
                          "" "" "" "" "plasma" 0%float (Some 2%float) None
    = Ok (AnimationCreator.mk script_header example_cube [0; 1]%float
                              "" "" "" "" "plasma" 0%float (Some lo) (Some hi)) /\
    global_min (elements example_cube) lo /\
    global_max (elements example_cube) hi.
Proof.
  assert (Hst : stackable example_cube).
  { split.
    - repeat constructor.
    - intros c c' Hc Hc'. unfold example_cube in *.
      repeat (apply elem_of_cons in Hc as [-> | Hc]);
        repeat (apply elem_of_cons in Hc' as [-> | Hc']);
        try reflexivity;
        solve [ apply not_elem_of_nil in Hc; contradiction
              | apply not_elem_of_nil in Hc'; contradiction ]. }
  assert (Hne : elements example_cube <> []) by (vm_compute; discriminate).
  split; [exact Hst | split; [exact Hne |]].
  apply (init_global_extrema script_header example_cube [0; 1]%float
           "" "" "" "" "plasma" 0%float (Some 2%float) None Hst Hne).
  right. reflexivity.
Defined.

(** ** [DataConfig] *)

(** C7: the table of unit factors; any label outside it, ["degrees"]
    included, gives [1.0] and no error. *)
Theorem units_factor_table :
  DataConfig._set_units_factor "arcmin" = 60.0%float /\
  DataConfig._set_units_factor "arcsec" = 3600.0%float /\
  DataConfig._set_units_factor "rad" = (np.pi / 180.0)%float /\
  DataConfig._set_units_factor "degrees" = 1.0%float /\
  forall units : string,
    units <> "arcmin"%string -> units <> "arcsec"%string ->
    units <> "rad"%string ->
    DataConfig._set_units_factor units = 1.0%float.
Proof.
  repeat split; try reflexivity.
  intros units H1 H2 H3. unfold DataConfig._set_units_factor.
  apply String.eqb_neq in H1, H2, H3. rewrite H1, H2, H3. reflexivity.
Qed.

Lemma units_factor_table_witness :
  "anything_unrecognized"%string <> "arcmin"%string /\
  "anything_unrecognized"%string <> "arcsec"%string /\
  "anything_unrecognized"%string <> "rad"%string /\
  DataConfig._set_units_factor "anything_unrecognized" = 1.0%float.
Proof.
  assert (H1 : "anything_unrecognized"%string <> "arcmin"%string) by discriminate.
  assert (H2 : "anything_unrecognized"%string <> "arcsec"%string) by discriminate.
  assert (H3 : "anything_unrecognized"%string <> "rad"%string) by discriminate.
  split; [exact H1 | split; [exact H2 | split; [exact H3 |]]].
  exact (proj2 (proj2 (proj2 (proj2 units_factor_table)))
           "anything_unrecognized"%string H1 H2 H3).
Defined.

(** What [config_axes] needs of a frame: its first two dimensions. *)
Lemma shape_at_two (data : np.ndarray) :
  (2 <= length (np.shape data))%nat ->
  exists n0 n1, np.shape_at data 0 = Ok n0 /\ np.shape_at data 1 = Ok n1.
Proof.
  unfold np.shape_at, getitem.
  destruct (np.shape data) as [| n0 [| n1 l]]; simpl; try lia.
  intros _. eauto.
Qed.

(** The body of [config_axes] without its dead assignments. *)
Lemma config_axes_eq
    (data : np.ndarray) (header : gmap string float) (units : string)
    (factor cdelt1 cdelt2 crpix1 crpix2 : float) :
  (2 <= length (np.shape data))%nat ->
  header !! "cdelt1"%string = Some cdelt1 ->
  header !! "cdelt2"%string = Some cdelt2 ->
  header !! "crpix1"%string = Some crpix1 ->
  header !! "crpix2"%string = Some crpix2 ->
  DataConfig.config_axes (DataConfig.mk data header units factor)
  = (x ← np.arange ((crpix1 - 1) * PrimFloat.abs (cdelt1 * factor))%float
                   (- ((crpix1 - 1) * PrimFloat.abs (cdelt1 * factor))
                    - cdelt1 * factor)%float
                   (- (cdelt1 * factor))%float;
     y ← np.arange_py (- ((crpix2 - 1) * (cdelt2 * factor)))%float
                      ((crpix2 - 1) * (cdelt2 * factor) + cdelt2 * factor)%float
                      (cdelt2 * factor)%float;
     Ok (x, y, ((crpix1 - 1) * PrimFloat.abs (cdelt1 * factor))%float,
         ((crpix2 - 1) * (cdelt2 * factor))%float)).
Proof.
  intros Hdim H1 H2 H3 H4.
  destruct (shape_at_two data Hdim) as (n0 & n1 & E0 & E1).
  unfold DataConfig.config_axes, getkey. simpl.
  rewrite E0, E1. simpl. rewrite H1, H2, H3, H4. reflexivity.
Qed.

(** ** The ranges of [config_axes] *)








(** C9: the frame given as [data] has no influence on what [config_axes]
    returns or raises. *)
Theorem config_axes_ignores_data
    (d1 d2 : np.ndarray) (header : gmap string float) (units : string)
    (factor : float) :
  (2 <= length (np.shape d1))%nat -> (2 <= length (np.shape d2))%nat ->
  DataConfig.config_axes (DataConfig.mk d1 header units factor)
  = DataConfig.config_axes (DataConfig.mk d2 header units factor).
Proof.
  intros H1 H2.
  destruct (shape_at_two d1 H1) as (a0 & a1 & A0 & A1).
  destruct (shape_at_two d2 H2) as (b0 & b1 & B0 & B1).
  unfold DataConfig.config_axes. simpl.
  rewrite A0, A1, B0, B1. reflexivity.
Qed.

Lemma config_axes_ignores_data_witness :
  DataConfig.config_axes
    (DataConfig.init (flat_frame 50 50 0) script_header (Some "arcsec"%string))
  = DataConfig.config_axes
      (DataConfig.init {| np.shape := [1; 3]%nat; np.data := [7; nan; -2]%float |}
                       script_header (Some "arcsec"%string)).
Proof.
  apply (config_axes_ignores_data (flat_frame 50 50 0)
           {| np.shape := [1; 3]%nat; np.data := [7; nan; -2]%float |}
           script_header "arcsec" (DataConfig._set_units_factor "arcsec"));
    simpl; lia.
Defined.

(** ** Decimal numerals *)

Lemma pretty_N_char_value (k : N) :
  (k < 10)%N -> digit_value (pretty_N_char k) = Some (Z.of_N k).
Proof.
  intros Hk.
  assert (E : (k = 0 \/ k = 1 \/ k = 2 \/ k = 3 \/ k = 4 \/ k = 5 \/ k = 6
               \/ k = 7 \/ k = 8 \/ k = 9)%N) by lia.
  repeat (destruct E as [-> | E]; [reflexivity |]). rewrite E. reflexivity.
Qed.

Lemma pretty_N_char_nonzero (k : N) :
  (0 < k < 10)%N -> pretty_N_char k <> "0"%char.
Proof.
  intros Hk.
  assert (E : (k = 1 \/ k = 2 \/ k = 3 \/ k = 4 \/ k = 5 \/ k = 6
               \/ k = 7 \/ k = 8 \/ k = 9)%N) by lia.
  repeat (destruct E as [-> | E]; [discriminate |]). rewrite E. discriminate.
Qed.

(** The digits that [pretty] puts in front of [s] denote [x]. *)
Lemma pretty_N_go_value (x : N) :
  forall s, exists p,
    forall acc, digits_value acc (pretty_N_go x s)
                = digits_value (acc * p + Z.of_N x) s.
Proof.
  induction (N.lt_wf_0 x) as [x _ IH]. intros s.
  assert (Hx : (x = 0 \/ 0 < x)%N) by lia. destruct Hx as [-> | Hx].
  - exists 1. intros acc. rewrite pretty_N_go_0. f_equal. lia.
  - rewrite pretty_N_go_step by exact Hx.
    destruct (IH (x `div` 10)%N (N.div_lt x 10 Hx eq_refl)
                 (String (pretty_N_char (x `mod` 10)) s)) as [p Hp].
    exists (10 * p). intros acc. rewrite Hp. cbn [digits_value].
    rewrite pretty_N_char_value by (apply N.mod_lt; discriminate).
    f_equal.
    assert (E : Z.of_N x
                = 10 * Z.of_N (x `div` 10) + Z.of_N (x `mod` 10)).
    { rewrite (N.div_mod x 10) at 1 by discriminate.
      rewrite N2Z.inj_add, N2Z.inj_mul. reflexivity. }
    rewrite E. ring.
Qed.

Lemma pretty_N_go_head (x : N) :
  (0 < x)%N ->
  forall s, exists c rest,
    pretty_N_go x s = String c rest /\ c <> "0"%char.
Proof.
  induction (N.lt_wf_0 x) as [x _ IH]. intros Hx s.
  rewrite pretty_N_go_step by exact Hx.
  destruct (N.eq_0_gt_0_cases (x `div` 10)) as [Hq | Hq].
  - rewrite Hq, pretty_N_go_0. eexists. eexists. split; [reflexivity |].
    apply pretty_N_char_nonzero.
    apply N.div_small_iff in Hq; [| discriminate].
    rewrite N.mod_small by exact Hq. lia.
  - apply IH; [apply N.div_lt; [exact Hx | reflexivity] | exact Hq].
Qed.

Lemma pretty_numeral (n : Z) : 0 <= n -> numeral (pretty n) n.
Proof.
  destruct n as [| p | p]; intros Hn; [| | lia].
  - split; [reflexivity | intros _; reflexivity].
  - change (pretty (Z.pos p)) with (pretty_N_go (N.pos p) "").
    split.
    + destruct (pretty_N_go_value (N.pos p) "") as [q Hq].
      rewrite Hq. reflexivity.
    + destruct (pretty_N_go_head (N.pos p) eq_refl "") as (c & rest & -> & Hc).
      intros E. contradiction.
Qed.

Lemma digit_value_digit (n : Z) : digit_value (F.digit n) = Some (n mod 10).
Proof.
  unfold F.digit.
  assert (H : 0 <= n mod 10 < 10) by (apply Z.mod_pos_bound; lia).
  set (k := n mod 10) in *.
  assert (E : k = 0 \/ k = 1 \/ k = 2 \/ k = 3 \/ k = 4 \/ k = 5 \/ k = 6
              \/ k = 7 \/ k = 8 \/ k = 9) by lia.
  repeat (destruct E as [-> | E]; [reflexivity |]). rewrite E. reflexivity.
Qed.

Lemma frac4_value (q : Z) :
  String.length (F.frac4 q) = 4%nat /\
  digits_value 0 (F.frac4 q) = Some (q mod 10000).
Proof.
  split; [reflexivity |].
  unfold F.frac4. cbn [digits_value]. rewrite !digit_value_digit.
  f_equal. Z.div_mod_to_equations. lia.
Qed.

Lemma round_half_even_nonneg m e : 0 <= m -> 0 <= F.round_half_even m e.
Proof.
  intros Hm. unfold F.round_half_even.
  destruct (0 <=? e) eqn:He.
  - apply Z.leb_le in He. apply Z.mul_nonneg_nonneg; [exact Hm |].
    apply Z.pow_nonneg. lia.
  - assert (Hd : 0 < 2 ^ (- e)) by (apply Z.pow_pos_nonneg; lia).
    pose proof (Z.div_pos m (2 ^ (- e)) Hm Hd) as Hq.
    cbv zeta.
    destruct (_ <? _); [exact Hq |].
    destruct (_ <? _); [lia |].
    destruct (Z.even _); lia.
Qed.

(** The rounding of [format] is to the nearest decimal, ties to even. *)
Lemma round_half_even_nearest (m e : Z) :
  nearest_4 m e (F.round_half_even (m * 10000) e).
Proof.
  unfold nearest_4, F.round_half_even. cbv zeta.
  destruct (0 <=? e) eqn:He.
  - apply Z.leb_le in He.
    rewrite (Z.max_r (- e) 0), (Z.max_l e 0) by lia.
    change (2 ^ 0) with 1. split; lia.
  - apply Z.leb_gt in He.
    rewrite (Z.max_l (- e) 0), (Z.max_r e 0) by lia.
    change (2 ^ 0) with 1. rewrite Z.mul_1_r.
    assert (Hd : 0 < 2 ^ (- e)) by (apply Z.pow_pos_nonneg; lia).
    set (d := 2 ^ (- e)) in *. set (M := m * 10000).
    pose proof (Z.div_mod M d ltac:(lia)) as HM.
    pose proof (Z.mod_pos_bound M d Hd) as Hr.
    set (q := M / d) in *. set (r := M mod d) in *.
    assert (E0 : q * d - M = - r) by lia.
    assert (E1 : (q + 1) * d - M = d - r) by lia.
    destruct (2 * r <? d) eqn:C1.
    { apply Z.ltb_lt in C1. rewrite E0. split; lia. }
    apply Z.ltb_ge in C1.
    destruct (d <? 2 * r) eqn:C2.
    { apply Z.ltb_lt in C2. rewrite E1. split; lia. }
    apply Z.ltb_ge in C2.
    destruct (Z.even q) eqn:Ev.
    + rewrite E0. split; [lia | intros _; exact Ev].
    + rewrite E1. split; [lia | intros _].
      rewrite Z.even_add, Ev. reflexivity.
Qed.

(** [format(phi, ".4f")] prints [phi]. *)
Lemma format_4f_printed (phi : float) : printed_4f phi (F.format_4f phi).
Proof.
  unfold printed_4f, F.format_4f.
  destruct (Prim2SF phi) as [s | s | | s m e].
  - destruct s; reflexivity.
  - destruct s; reflexivity.
  - reflexivity.
  - set (q := F.round_half_even (Z.pos m * 10000) e).
    assert (Hq : 0 <= q) by (apply round_half_even_nonneg; lia).
    exists (pretty (q / 10000)), (F.frac4 q), (q / 10000), (q mod 10000).
    split; [reflexivity |].
    split; [apply pretty_numeral, Z.div_pos; lia |].
    split; [apply frac4_value |]. split; [apply frac4_value |].
    replace (q / 10000 * 10000 + q mod 10000) with q
      by (rewrite (Z.div_mod q 10000) at 1 by lia; lia).
    apply round_half_even_nearest.
Qed.

(** ** The frames of the animation *)

Lemma valid_image_2d (a : np.ndarray) :
  length (np.shape a) = 2%nat -> plt.valid_image a = true.
Proof.
  unfold plt.valid_image.
  destruct (np.shape a) as [| ? [| ? [| ? ?]]]; simpl; intros H;
    try discriminate; reflexivity.
Qed.

(** The update of a frame on a figure with a colour bar. *)
Lemma animate_frame_figure lib self i arr phi fig cb a b new :
  AnimationCreator.cube self !! i = Some arr ->
  AnimationCreator.cube_axis self !! i = Some phi ->
  plt.valid_image arr = true ->
  plt.colorbar fig = Some cb ->
  plt.im_clim fig = (Some a, Some b) ->
  plt.clim_update lib (a, b) (AnimationCreator.vmin self)
                  (AnimationCreator.vmax self) = Ok new ->
  AnimationCreator.animate lib self i fig = Ok (frame_figure arr phi new fig).
Proof.
  intros Hc Ha Hv Hcb Hcl Hup. unfold AnimationCreator.animate, getitem.
  rewrite Hc, Ha, !bind_Ok. cbv zeta.
  unfold plt.set_data. rewrite Hv. cbn [negb]. rewrite bind_Ok.
  unfold plt.set_clim. cbn [plt.colorbar plt.im_clim plt.set_title].
  rewrite Hcb, Hcl, Hup, bind_Ok, <- Hcb. reflexivity.
Qed.

(** Without a depth for it, the update of a frame raises. *)
Lemma animate_no_depth lib self i arr fig :
  AnimationCreator.cube self !! i = Some arr ->
  AnimationCreator.cube_axis self !! i = None ->
  AnimationCreator.animate lib self i fig = Raise IndexError.
Proof.
  intros Hc Ha. unfold AnimationCreator.animate, getitem.
  rewrite Hc, Ha. reflexivity.
Qed.

Lemma frame_of_decorated lib self axes i fig :
  frame_of lib self axes i fig ->
  decorated self axes fig /\
  exists a b, plt.im_clim fig = (Some a, Some b).
Proof.
  intros (arr & phi & old & new & _ & _ & _ & _ & _ & Hd & _ & Hcl). eauto.
Qed.

Lemma frames_of_fst lib self axes idx fs :
  frames_of lib self axes idx fs -> map fst fs = idx.
Proof.
  induction 1 as [| i p idx fs [E _] _ IH]; simpl; [reflexivity |].
  rewrite E, IH. reflexivity.
Qed.

Lemma frames_of_lookup lib self axes idx fs k i :
  frames_of lib self axes idx fs -> idx !! k = Some i ->
  exists fig, fs !! k = Some (i, fig) /\ frame_of lib self axes i fig.
Proof.
  intros H Hk. destruct (Forall2_lookup_l _ _ _ _ _ H Hk) as ([j fig] & E & Ej & Hf).
  simpl in *. subst j. eauto.
Qed.

Lemma frames_of_elem lib self axes idx fs i fig :
  frames_of lib self axes idx fs -> (i, fig) ∈ fs ->
  i ∈ idx /\ frame_of lib self axes i fig.
Proof.
  intros H Hi. apply list_elem_of_lookup_1 in Hi as [k Hk].
  destruct (Forall2_lookup_r _ _ _ _ _ H Hk) as (j & Ej & E & Hf).
  simpl in *. subst j. split; [| exact Hf].
  eapply list_elem_of_lookup_2, Ej.
Qed.

Section Frames.

Variable lib : plt.Library.
Variable self : AnimationCreator.t.
Variable output_video : string.
Variable interval : Z.
Variable c0 : np.ndarray.
Variable axes : DataConfig.axes.

Hypothesis frames_2d :
  Forall (fun c => length (np.shape c) = 2%nat) (AnimationCreator.cube self).
Hypothesis accepted : library_accepts lib self output_video interval.
Hypothesis first_frame : AnimationCreator.cube self !! 0%nat = Some c0.
Hypothesis axes_laid_out :
  DataConfig.config_axes
    (DataConfig.init c0 (AnimationCreator.header self) None) = Ok axes.

(** One turn of the loop of the writer. *)
Lemma frame_step i fig :
  (i < length (AnimationCreator.cube self))%nat ->
  (i < length (AnimationCreator.cube_axis self))%nat ->
  decorated self axes fig ->
  (exists a b, plt.im_clim fig = (Some a, Some b)) ->
  exists fig',
    AnimationCreator.animate lib self i fig = Ok fig' /\
    plt.draw_error lib fig' = None /\
    frame_of lib self axes i fig'.
Proof.
  intros Hi Hi' Hd (a & b & Hcl).
  destruct (lookup_lt_is_Some_2 _ i Hi) as [arr Harr].
  destruct (lookup_lt_is_Some_2 _ i Hi') as [phi Hphi].
  destruct accepted as (_ & _ & _ & Hup & Hdraw).
  destruct (Hup (a, b)) as [new Hnew].
  assert (Hf : frame_of lib self axes i (frame_figure arr phi new fig)).
  { exists arr, phi, (a, b), new.
    destruct Hd as (H1 & H2 & H3 & H4 & H5 & H6 & H7).
    repeat split; assumption. }
  exists (frame_figure arr phi new fig). split; [| split].
  - apply (animate_frame_figure lib self i arr phi fig
             (animation_colorbar self) a b new); try assumption.
    + apply valid_image_2d.
      exact (proj1 (Forall_lookup _ _) frames_2d i arr Harr).
    + apply Hd.
  - exact (Hdraw c0 axes i _ first_frame axes_laid_out Hf).
  - exact Hf.
Qed.

(** The loop of the writer over frames that have a depth: every index is
    drawn and grabbed in turn. *)
Lemma draw_frames_frames idx :
  Forall (fun i => (i < length (AnimationCreator.cube self))%nat /\
                   (i < length (AnimationCreator.cube_axis self))%nat) idx ->
  forall fig,
    decorated self axes fig ->
    (exists a b, plt.im_clim fig = (Some a, Some b)) ->
    exists fs,
      animation.draw_frames (plt.draw_error lib)
        (AnimationCreator.animate lib self) idx fig = Ok fs /\
      animation.grabbed_before (plt.draw_error lib)
        (AnimationCreator.animate lib self) idx fig = fs /\
      frames_of lib self axes idx fs.
Proof.
  induction 1 as [| i idx [Hi Hi'] _ IH]; intros fig Hd Hcl.
  - exists []. repeat split. constructor.
  - destruct (frame_step i fig Hi Hi' Hd Hcl) as (fig' & Ean & Edr & Hf).
    destruct (frame_of_decorated _ _ _ _ _ Hf) as [Hd' Hcl'].
    destruct (IH fig' Hd' Hcl') as (fs & E1 & E2 & Hfs).
    exists ((i, fig') :: fs).
    cbn [animation.draw_frames animation.grabbed_before].
    rewrite Ean, bind_Ok, Edr, E1, E2. repeat split.
    constructor; [split; [reflexivity | exact Hf] | exact Hfs].
Qed.

(** The loop of the writer up to a frame without a depth: the frames
    before it are grabbed, then the update raises. *)
Lemma draw_frames_short idx j rest :
  Forall (fun i => (i < length (AnimationCreator.cube self))%nat /\
                   (i < length (AnimationCreator.cube_axis self))%nat) idx ->
  (j < length (AnimationCreator.cube self))%nat ->
  (length (AnimationCreator.cube_axis self) <= j)%nat ->
  forall fig,
    decorated self axes fig ->
    (exists a b, plt.im_clim fig = (Some a, Some b)) ->
    exists fs,
      animation.draw_frames (plt.draw_error lib)
        (AnimationCreator.animate lib self) (idx ++ j :: rest) fig
      = Raise IndexError /\
      animation.grabbed_before (plt.draw_error lib)
        (AnimationCreator.animate lib self) (idx ++ j :: rest) fig = fs /\
      frames_of lib self axes idx fs.
Proof.
  intros Hidx Hj Hj'.
  induction Hidx as [| i idx [Hi Hi'] _ IH]; intros fig Hd Hcl.
  - exists []. cbn [app animation.draw_frames animation.grabbed_before].
    destruct (lookup_lt_is_Some_2 _ j Hj) as [arr Harr].
    rewrite (animate_no_depth lib self j arr fig Harr)
      by (apply lookup_ge_None_2; exact Hj').
    repeat split. constructor.
  - destruct (frame_step i fig Hi Hi' Hd Hcl) as (fig' & Ean & Edr & Hf).
    destruct (frame_of_decorated _ _ _ _ _ Hf) as [Hd' Hcl'].
    destruct (IH fig' Hd' Hcl') as (fs & E1 & E2 & Hfs).
    exists ((i, fig') :: fs).
    cbn [app animation.draw_frames animation.grabbed_before].
    rewrite Ean, bind_Ok, Edr, E1, E2. repeat split.
    constructor; [split; [reflexivity | exact Hf] | exact Hfs].
Qed.

(** The first render leaves a decorated figure with both limits set. *)
Lemma initial_render_decorated :
  plt.registered lib (AnimationCreator.cmap self) = true ->
  exists fig,
    AnimationCreator.initial_render lib self axes = Ok fig /\
    decorated self axes fig /\
    exists a b, plt.im_clim fig = (Some a, Some b).
Proof.
  intros Hreg.
  destruct accepted as (_ & _ & Hcb & _ & _).
  destruct (Hcb c0 first_frame) as [lims Hlims].
  assert (Hv : plt.valid_image c0 = true).
  { apply valid_image_2d.
    exact (proj1 (Forall_lookup _ _) frames_2d 0%nat c0 first_frame). }
  unfold AnimationCreator.initial_render, AnimationCreator.first_image, getitem.
  rewrite first_frame, bind_Ok. unfold plt.imshow. rewrite Hreg, Hv.
  cbn [negb]. rewrite bind_Ok. cbv zeta.
  unfold ColorBarManager.create_colorbar.
  cbn [plt.im_data plt.im_clim plt.set_title plt.set_xlabel plt.set_ylabel].
  rewrite Hlims, bind_Ok. cbv zeta.
  eexists. split; [reflexivity |]. split.
  - repeat split.
  - exists lims.1, lims.2. reflexivity.
Qed.

End Frames.

Lemma init_draw_first ani fig :
  (0 < animation.frames ani)%nat ->
  animation.init_draw ani fig = animation.func ani 0%nat fig.
Proof.
  unfold animation.init_draw.
  destruct (animation.frames ani); [lia | reflexivity].
Qed.

Lemma save_accepted lib ani fig filename :
  animation.interval ani <> 0 ->
  plt.writer_error lib filename (animation.interval ani) = None ->
  animation.save lib ani fig filename
  = (fig ← animation.init_draw ani fig;
     fs ← animation.draw_frames (plt.draw_error lib) (animation.func ani)
            (seq 0 (animation.frames ani)) fig;
     Ok {| animation.filename := filename; animation.grabbed := fs |}).
Proof.
  intros Hi Hw. unfold animation.save.
  apply Z.eqb_neq in Hi. rewrite Hi, Hw. reflexivity.
Qed.

(** A loop that ends well has grabbed what it returns. *)
Lemma draw_frames_grabbed draw f idx :
  forall fig fs,
    animation.draw_frames draw f idx fig = Ok fs ->
    animation.grabbed_before draw f idx fig = fs.
Proof.
  induction idx as [| i idx IH]; intros fig fs.
  - intros [= <-]. reflexivity.
  - cbn [animation.draw_frames animation.grabbed_before].
    destruct (f i fig) as [fig' |]; [| discriminate]. rewrite bind_Ok.
    destruct (draw fig'); [discriminate |].
    destruct (animation.draw_frames draw f idx fig') as [rest |] eqn:E;
      [| discriminate].
    rewrite bind_Ok. intros [= <-]. rewrite (IH fig' rest E). reflexivity.
Qed.

(** The movie that [save] returns is what the writer holds. *)
Lemma save_written lib ani fig filename movie :
  animation.save lib ani fig filename = Ok movie ->
  animation.written lib ani fig filename = Some movie.
Proof.
  unfold animation.save, animation.written.
  destruct (animation.interval ani =? 0); [discriminate |].
  destruct (plt.writer_error lib filename (animation.interval ani));
    [discriminate |].
  destruct (animation.init_draw ani fig) as [fig' |]; [| discriminate].
  rewrite bind_Ok.
  destruct (animation.draw_frames _ _ _ fig') as [fs |] eqn:E;
    [| discriminate].
  rewrite bind_Ok. intros [= <-].
  rewrite (draw_frames_grabbed _ _ _ _ _ E). reflexivity.
Qed.

(** The whole of [create_animation] on a valid input with a first frame,
    with a library that goes along. *)
Lemma create_animation_frames lib self c0 axes output_video
    fps interval repeat :
  valid_input lib self ->
  library_accepts lib self output_video interval ->
  AnimationCreator.cube self !! 0%nat = Some c0 ->
  DataConfig.config_axes
    (DataConfig.init c0 (AnimationCreator.header self) None) = Ok axes ->
  exists fs,
    AnimationCreator.create_animation lib self output_video fps interval
                                      repeat
    = Ok {| animation.filename := output_video; animation.grabbed := fs |} /\
    frames_of lib self axes (seq 0 (length (AnimationCreator.cube self))) fs.
Proof.
  intros (H2d & Hlen & Hreg & _) Hacc Hc Hax.
  assert (H0 : (0 < length (AnimationCreator.cube self))%nat)
    by (eapply lookup_lt_Some, Hc).
  destruct (initial_render_decorated lib self output_video interval c0 axes
              H2d Hacc Hc Hreg) as (fig0 & E0 & Hd0 & Hcl0).
  destruct (frame_step lib self output_video interval c0 axes H2d Hacc Hc Hax
              0 fig0 H0 ltac:(lia) Hd0 Hcl0) as (fig1 & E1 & _ & Hf1).
  destruct (frame_of_decorated _ _ _ _ _ Hf1) as [Hd1 Hcl1].
  destruct (draw_frames_frames lib self output_video interval c0 axes H2d
              Hacc Hc Hax (seq 0 (length (AnimationCreator.cube self))))
    with (fig := fig1) as (fs & E2 & _ & Hfs); try assumption.
  { apply Forall_forall. intros i Hi. apply elem_of_seq in Hi. lia. }
  exists fs. split; [| exact Hfs].
  unfold AnimationCreator.create_animation, getitem.
  rewrite Hc, bind_Ok, Hax, bind_Ok, E0, bind_Ok.
  rewrite save_accepted; [| apply Hacc | apply Hacc].
  rewrite init_draw_first by exact H0.
  cbn [animation.func animation.frames].
  rewrite E1, bind_Ok, E2. reflexivity.
Qed.

(** A library that takes everything goes along with every animation. *)
Lemma some_library_accepts self output_video interval :
  interval <> 0 -> library_accepts some_library self output_video interval.
Proof.
  intros Hi. split; [exact Hi |]. split; [reflexivity |]. split; [| split].
  - intros c0 _. cbn [some_library plt.colorbar_draw].
    destruct (np.amin c0), (np.amax c0); eauto.
  - intros old. eexists. reflexivity.
  - reflexivity.
Qed.


(** A header that lays the axes out whatever the frame: the one of the
    script. *)
Lemma script_header_axes (c0 : np.ndarray) :
  length (np.shape c0) = 2%nat ->
  exists axes,
    DataConfig.config_axes (DataConfig.init c0 script_header None) = Ok axes /\
    DataConfig.axes_2 axes = 24.5%float /\
    DataConfig.axes_3 axes = 24.5%float.
Proof.
  intros H2. unfold DataConfig.config_axes.
  destruct (shape_at_two c0) as (n0 & n1 & E0 & E1); [lia |].
  cbn [DataConfig.data DataConfig.init]. rewrite E0, E1, !bind_Ok.
  vm_compute. eauto.
Qed.

Lemma two_frames_valid : valid_input some_library two_frames.
Proof.
  repeat split.
  - repeat constructor.
  - intros c0 H. destruct (script_header_axes c0) as (axes & Hax & _).
    + injection H as <-. reflexivity.
    + exists axes. exact Hax.
Qed.

(** C4: with a library that goes along, one grabbed frame per frame of the
    cube, drawn for the indices [0, 1, ..., len(cube) - 1] in this order,
    the frame of index [i] showing [cube[i]]. *)
Theorem animation_frames_in_order
    (lib : plt.Library) (self : AnimationCreator.t)
    (output_video : string) (fps interval : Z) (repeat : bool) :
  AnimationCreator.cube self <> [] ->
  valid_input lib self ->
  library_accepts lib self output_video interval ->
  exists movie,
    AnimationCreator.create_animation lib self output_video fps
                                      interval repeat = Ok movie /\
    length (animation.grabbed movie) = length (AnimationCreator.cube self) /\
    map fst (animation.grabbed movie)
      = seq 0 (length (AnimationCreator.cube self)) /\
    forall i arr,
      AnimationCreator.cube self !! i = Some arr ->
      exists fig,
        animation.grabbed movie !! i = Some (i, fig) /\ plt.im_data fig = arr.
Proof.
  intros Hne Hin Hacc.
  assert (Hc : exists c0, AnimationCreator.cube self !! 0%nat = Some c0).
  { destruct (AnimationCreator.cube self); [congruence | eauto]. }
  destruct Hc as [c0 Hc].
  destruct (proj2 (proj2 (proj2 Hin)) c0 Hc) as [axes Hax].
  destruct (create_animation_frames lib self c0 axes output_video fps
              interval repeat Hin Hacc Hc Hax) as (fs & E & Hfs).
  eexists. split; [exact E |].
  cbn [animation.grabbed]. split; [| split].
  - rewrite <- (Forall2_length _ _ _ Hfs). apply length_seq.
  - exact (frames_of_fst _ _ _ _ _ Hfs).
  - intros i arr Hi.
    assert (Hlt : (i < length (AnimationCreator.cube self))%nat)
      by (eapply lookup_lt_Some, Hi).
    destruct (frames_of_lookup _ _ _ _ _ i i Hfs) as (fig & Efig & Hf).
    { apply lookup_seq_lt. exact Hlt. }
    exists fig. split; [exact Efig |].
    destruct Hf as (arr' & phi & old & new & Harr & _ & Hdata & _).
    congruence.
Qed.

Lemma animation_frames_in_order_witness :
  AnimationCreator.cube two_frames <> [] /\
  valid_input some_library two_frames /\
  library_accepts some_library two_frames "dynamic_images.mp4" 50 /\
  exists movie,
    AnimationCreator.create_animation some_library two_frames
      "dynamic_images.mp4" 30 50 false = Ok movie /\
    length (animation.grabbed movie) = 2%nat /\
    map fst (animation.grabbed movie) = [0; 1]%nat /\
    forall i arr,
      AnimationCreator.cube two_frames !! i = Some arr ->
      exists fig,
        animation.grabbed movie !! i = Some (i, fig) /\ plt.im_data fig = arr.
Proof.
  assert (Hne : AnimationCreator.cube two_frames <> []) by discriminate.
  assert (Hacc : library_accepts some_library two_frames
                   "dynamic_images.mp4" 50)
    by (apply some_library_accepts; discriminate).
  split; [exact Hne | split; [exact two_frames_valid | split; [exact Hacc |]]].
  exact (animation_frames_in_order some_library two_frames
           "dynamic_images.mp4" 30 50 false Hne two_frames_valid Hacc).
Defined.

(** ** The title and the colour limits of a frame *)

(** After [__init__] both limits are set. *)
Lemma init_sets_bounds header cube cube_axis xlabel ylabel cblabel title cmap
    title_pad vmin vmax self :
  AnimationCreator.init header cube cube_axis xlabel ylabel cblabel title
                        cmap title_pad vmin vmax = Ok self ->
  exists lo hi,
    AnimationCreator.vmin self = Some lo /\
    AnimationCreator.vmax self = Some hi /\
    AnimationCreator.cube self = cube /\
    AnimationCreator.cube_axis self = cube_axis.
Proof.
  unfold AnimationCreator.init. cbn [AnimationCreator.vmin AnimationCreator.vmax].
  destruct (AnimationCreator.is_None vmin || AnimationCreator.is_None vmax) eqn:E.
  - destruct (np.amax_axis0 cube) as [top |]; [| discriminate].
    rewrite bind_Ok. destruct (np.amax top) as [hi |]; [| discriminate].
    rewrite bind_Ok. destruct (np.amin_axis0 cube) as [bot |]; [| discriminate].
    rewrite bind_Ok. destruct (np.amin bot) as [lo |]; [| discriminate].
    rewrite bind_Ok. intros [= <-]. exists lo, hi. repeat split.
  - destruct vmin as [lo |], vmax as [hi |]; try discriminate.
    intros [= <-]. exists lo, hi. repeat split.
Qed.

(** C5: the update of frame [i] writes the title around [cube_axis[i]]
    printed with four decimals, and requests the pair of limits that
    [__init__] fixed; the limits of the figure are then what the library,
    which shares them with the colour bar, makes of the request: the pair
    itself when the library keeps it. *)
Theorem animate_title_and_limits
    (lib : plt.Library)
    (header : gmap string float) (cube : list np.ndarray)
    (cube_axis : list float) (xlabel ylabel cblabel title cmap : string)
    (title_pad : float) (vmin vmax : option float)
    (self : AnimationCreator.t) (i : nat) (arr : np.ndarray) (phi : float)
    (fig : plt.Figure) (cb : plt.Colorbar) (a b : float)
    (lims : float * float) :
  AnimationCreator.init header cube cube_axis xlabel ylabel cblabel title
                        cmap title_pad vmin vmax = Ok self ->
  cube !! i = Some arr ->
  cube_axis !! i = Some phi ->
  length (np.shape arr) = 2%nat ->
  plt.colorbar fig = Some cb ->
  plt.im_clim fig = (Some a, Some b) ->
  plt.clim_update lib (a, b) (AnimationCreator.vmin self)
                  (AnimationCreator.vmax self) = Ok lims ->
  exists lo hi fig',
    AnimationCreator.vmin self = Some lo /\
    AnimationCreator.vmax self = Some hi /\
    AnimationCreator.animate lib self i fig = Ok fig' /\
    (exists number,
       plt.ax_title fig'
       = ("Faraday Depth Spectrum at " +:+ number +:+ " rad/m^2")%string /\
       printed_4f phi number) /\
    plt.clim_update lib (a, b) (Some lo) (Some hi) = Ok lims /\
    plt.im_clim fig' = (Some lims.1, Some lims.2) /\
    (lims = (lo, hi) -> plt.im_clim fig' = (Some lo, Some hi)) /\
    plt.im_data fig' = arr.
Proof.
  intros Hinit Hc Ha H2 Hcb Hcl Hup.
  destruct (init_sets_bounds _ _ _ _ _ _ _ _ _ _ _ _ Hinit)
    as (lo & hi & Hlo & Hhi & Ecube & Eaxis).
  exists lo, hi, (frame_figure arr phi lims fig).
  split; [exact Hlo | split; [exact Hhi | split]].
  - apply (animate_frame_figure lib self i arr phi fig cb a b lims);
      try assumption.
    + rewrite Ecube. exact Hc.
    + rewrite Eaxis. exact Ha.
    + apply valid_image_2d, H2.
  - split; [| split; [| split; [| split]]].
    + exists (F.format_4f phi). split; [reflexivity |].
      apply format_4f_printed.
    + rewrite <- Hlo, <- Hhi. exact Hup.
    + reflexivity.
    + intros ->. reflexivity.
    + reflexivity.
Qed.

Lemma animate_title_and_limits_witness :
  exists self,
    AnimationCreator.init script_header example_cube [-10; 0.00015]%float
                          "" "" "" "" "plasma" 0%float None None = Ok self /\
    exists fig',
      AnimationCreator.animate some_library self 1
        (first_figure self (flat_frame 1 2 0) ([], [], 24.5, 24.5)%float
                      (0, 3)%float)
      = Ok fig' /\
      plt.ax_title fig' = "Faraday Depth Spectrum at 0.0001 rad/m^2"%string /\
      plt.im_clim fig' = (Some (-5)%float, Some 10%float).
Proof.
  eexists. split; [vm_compute; reflexivity |].
  match goal with
  | |- context [AnimationCreator.animate _ ?s 1 ?f] =>
      destruct (animate_title_and_limits some_library script_header
                  example_cube [-10; 0.00015]%float "" "" "" "" "plasma"
                  0%float None None
                  s 1 {| np.shape := [1; 2]%nat; np.data := [0; 3]%float |}
                  0.00015%float f (animation_colorbar s) 0 3 (-5, 10)%float)
        as (lo & hi & fig' & Hlo & Hhi & Han & _ & _ & Hclim & _ & _);
      [vm_compute; reflexivity | reflexivity | reflexivity | reflexivity
      | reflexivity | reflexivity | reflexivity |]
  end.
  exists fig'. split; [exact Han | split].
  - vm_compute in Han. injection Han as <-. reflexivity.
  - exact Hclim.
Defined.

(** ** The extent of the first render *)

Lemma extent_differs :
  [24.5; -24.5; -24.5; 24.5]%float <> [-24.5; 24.5; -24.5; 24.5]%float.
Proof.
  intros H.
  apply (f_equal (fun l => match l with
                           | x :: _ => (x <? 0)%float
                           | [] => false
                           end)) in H.
  vm_compute in H. discriminate.
Qed.

(** C1, as stated, fails: the extent that the first render of the scenario
    receives is not [[-24.5, 24.5, -24.5, 24.5]]. *)
Lemma scenario_extent_not_symmetric_order :
  exists axes fig,
    DataConfig.config_axes
      (DataConfig.init (flat_frame 50 50 0.25) script_header None) = Ok axes /\
    AnimationCreator.first_image some_library script_creator axes = Ok fig /\
    plt.im_extent fig <> [-24.5; 24.5; -24.5; 24.5]%float.
Proof.
  eexists. eexists. split; [vm_compute; reflexivity |].
  split; [vm_compute; reflexivity |].
  exact extent_differs.
Qed.

(** C1, amended: for the header of the scenario and a frame of 50 by 50,
    [dx = dy = 0.5] and [x1 = y1 = 24.5], and the first render receives the
    extent [[x1, -x1, -y1, y1]], that is [[24.5, -24.5, -24.5, 24.5]]. *)
Theorem scenario_axes_and_extent
    (lib : plt.Library) (self : AnimationCreator.t)
    (c0 : np.ndarray) (rest : list np.ndarray) :
  AnimationCreator.header self = script_header ->
  AnimationCreator.cube self = c0 :: rest ->
  np.shape c0 = [50; 50]%nat ->
  plt.registered lib (AnimationCreator.cmap self) = true ->
  let data_config := DataConfig.init c0 (AnimationCreator.header self) None in
  (exists cdelt1 cdelt2,
     DataConfig.header data_config !! "cdelt1"%string = Some cdelt1 /\
     DataConfig.header data_config !! "cdelt2"%string = Some cdelt2 /\
     (cdelt1 * DataConfig.u_factor data_config)%float = 0.5%float /\
     (cdelt2 * DataConfig.u_factor data_config)%float = 0.5%float) /\
  exists axes fig,
    DataConfig.config_axes data_config = Ok axes /\
    DataConfig.axes_2 axes = 24.5%float /\
    DataConfig.axes_3 axes = 24.5%float /\
    AnimationCreator.first_image lib self axes = Ok fig /\
    plt.im_data fig = c0 /\
    plt.im_extent fig
      = [ DataConfig.axes_2 axes; (- DataConfig.axes_2 axes)%float;
          (- DataConfig.axes_3 axes)%float; DataConfig.axes_3 axes ] /\
    plt.im_extent fig = [24.5; -24.5; -24.5; 24.5]%float.
Proof.
  intros Hh Hcube Hshape Hreg data_config. subst data_config. rewrite Hh.
  split.
  { exists 0.5%float, 0.5%float. repeat split. }
  destruct (script_header_axes c0) as (axes & Hax & H2 & H3).
  { rewrite Hshape. reflexivity. }
  exists axes. eexists.
  split; [exact Hax | split; [exact H2 | split; [exact H3 | split]]].
  - unfold AnimationCreator.first_image, getitem. rewrite Hcube.
    cbn [lookup list_lookup]. rewrite bind_Ok. unfold plt.imshow.
    rewrite Hreg, (valid_image_2d c0) by (rewrite Hshape; reflexivity).
    reflexivity.
  - split; [reflexivity |]. split; [reflexivity |].
    cbn [plt.im_extent]. rewrite H2, H3. reflexivity.
Qed.

Lemma scenario_axes_and_extent_witness :
  exists axes fig,
    DataConfig.config_axes
      (DataConfig.init (flat_frame 50 50 0.25) script_header None) = Ok axes /\
    AnimationCreator.first_image some_library script_creator axes = Ok fig /\
    plt.im_extent fig = [24.5; -24.5; -24.5; 24.5]%float.
Proof.
  destruct (scenario_axes_and_extent some_library script_creator
              (flat_frame 50 50 0.25) [] eq_refl eq_refl eq_refl eq_refl)
    as (_ & axes & fig & Hax & _ & _ & Hfig & _ & _ & Hext).
  exists axes, fig. repeat split; assumption.
Defined.

(** ** The empty cube *)

(** C6, as stated, fails: no empty sequence of frames reaches the writer. *)
Lemma empty_cube_no_movie :
  ~ exists movie,
      AnimationCreator.run some_library script_header [] []
        "X-axis" "Y-axis" "Color Bar" "Sample Animation" "plasma" 0%float
        None None = Ok movie /\
      animation.grabbed movie = [].
Proof. intros (movie & H & _). vm_compute in H. discriminate. Qed.

(** C6, amended: nothing checks that the cube has frames, and no error of
    the module's own is raised; the run ends all the same before the writer,
    in the reduction of [__init__] when a limit is missing, at [cube[0]] in
    [create_animation] otherwise. *)
Theorem empty_cube_raises
    (lib : plt.Library) (header : gmap string float)
    (cube_axis : list float) (xlabel ylabel cblabel title cmap : string)
    (title_pad : float) (vmin vmax : option float) :
  AnimationCreator.run lib header [] cube_axis xlabel ylabel cblabel
                       title cmap title_pad vmin vmax
  = Raise (if AnimationCreator.is_None vmin || AnimationCreator.is_None vmax
           then ValueError else IndexError) /\
  (forall lo hi self, vmin = Some lo -> vmax = Some hi ->
     AnimationCreator.init header [] cube_axis xlabel ylabel cblabel title
                           cmap title_pad vmin vmax = Ok self ->
     forall output_video fps interval repeat,
       AnimationCreator.create_animation lib self output_video fps
                                         interval repeat = Raise IndexError).
Proof.
  split.
  - unfold AnimationCreator.run, AnimationCreator.init.
    destruct vmin, vmax; reflexivity.
  - intros lo hi self -> -> [= <-]. reflexivity.
Qed.

Lemma empty_cube_raises_witness :
  AnimationCreator.run some_library script_header [] [-10]%float
    "X-axis" "Y-axis" "Color Bar" "Sample Animation" "plasma" 0%float
    (Some 0%float) (Some 1%float) = Raise IndexError /\
  AnimationCreator.create_animation some_library
    (AnimationCreator.mk script_header [] [-10]%float
       "X-axis" "Y-axis" "Color Bar" "Sample Animation" "plasma" 0%float
       (Some 0%float) (Some 1%float))
    "dynamic_images.mp4" 30 50 false = Raise IndexError.
Proof.
  pose proof (empty_cube_raises some_library script_header [-10]%float
                "X-axis" "Y-axis" "Color Bar" "Sample Animation" "plasma"
                0%float (Some 0%float) (Some 1%float)) as [Hrun Hcreate].
  split; [exact Hrun |].
  exact (Hcreate 0%float 1%float _ eq_refl eq_refl eq_refl
           "dynamic_images.mp4" 30 50 false).
Defined.

(** ** The colormap *)

(** C8, as stated, fails: the default name ["Spectral"] is not in the
    catalogue of [ColormapManager], and the render is performed with it. *)
Lemma spectral_is_rendered :
  ~ "Spectral"%string ∈ ColormapManager.get_colormaps ColormapManager.init /\
  exists movie fig,
    AnimationCreator.run some_library script_header [flat_frame 2 2 0.5]
      [-10]%float "X-axis" "Y-axis" "Color Bar" "Sample Animation"
      AnimationCreator.default_cmap 0%float None None = Ok movie /\
    animation.grabbed movie = [(0%nat, fig)] /\
    plt.im_cmap fig = "Spectral"%string.
Proof.
  split.
  - apply (bool_decide_eq_false_1 _). vm_compute. reflexivity.
  - eexists. eexists. split; [vm_compute; reflexivity |].
    split; reflexivity.
Qed.

(** C8, amended: the name given as [cmap] is handed to the render as it is,
    without a look at the catalogue of [ColormapManager]; every frame of a
    valid input is rendered with it, when the library goes along. *)
Theorem colormap_passed_as_given
    (lib : plt.Library) (self : AnimationCreator.t)
    (output_video : string) (fps interval : Z) (repeat : bool) :
  AnimationCreator.cube self <> [] ->
  valid_input lib self ->
  library_accepts lib self output_video interval ->
  exists movie,
    AnimationCreator.create_animation lib self output_video fps
                                      interval repeat = Ok movie /\
    animation.grabbed movie <> [] /\
    forall i fig,
      (i, fig) ∈ animation.grabbed movie ->
      plt.im_cmap fig = AnimationCreator.cmap self.
Proof.
  intros Hne Hin Hacc.
  assert (Hc : exists c0, AnimationCreator.cube self !! 0%nat = Some c0).
  { destruct (AnimationCreator.cube self); [congruence | eauto]. }
  destruct Hc as [c0 Hc].
  destruct (proj2 (proj2 (proj2 Hin)) c0 Hc) as [axes Hax].
  destruct (create_animation_frames lib self c0 axes output_video fps
              interval repeat Hin Hacc Hc Hax) as (fs & E & Hfs).
  eexists. split; [exact E |].
  cbn [animation.grabbed]. split.
  - intros ->. apply Forall2_length in Hfs. rewrite length_seq in Hfs.
    destruct (AnimationCreator.cube self); [congruence | discriminate].
  - intros i fig Hi.
    destruct (frames_of_elem _ _ _ _ _ _ _ Hfs Hi) as [_ Hf].
    destruct (frame_of_decorated _ _ _ _ _ Hf) as [Hd _]. apply Hd.
Qed.

Lemma spectral_creator_valid : valid_input some_library spectral_creator.
Proof.
  repeat split.
  - repeat constructor.
  - intros c0 H. destruct (script_header_axes c0) as (axes & Hax & _).
    + injection H as <-. reflexivity.
    + exists axes. exact Hax.
Qed.

Lemma colormap_passed_as_given_witness :
  AnimationCreator.cube spectral_creator <> [] /\
  valid_input some_library spectral_creator /\
  library_accepts some_library spectral_creator "dynamic_images.mp4" 50 /\
  ~ AnimationCreator.cmap spectral_creator
      ∈ ColormapManager.get_colormaps ColormapManager.init /\
  exists movie,
    AnimationCreator.create_animation some_library spectral_creator
      "dynamic_images.mp4" 30 50 false = Ok movie /\
    animation.grabbed movie <> [] /\
    forall i fig,
      (i, fig) ∈ animation.grabbed movie ->
      plt.im_cmap fig = "Spectral"%string.
Proof.
  assert (Hne : AnimationCreator.cube spectral_creator <> []) by discriminate.
  assert (Hacc : library_accepts some_library spectral_creator
                   "dynamic_images.mp4" 50)
    by (apply some_library_accepts; discriminate).
  split; [exact Hne | split; [exact spectral_creator_valid |]].
  split; [exact Hacc | split].
  - apply (bool_decide_eq_false_1 _). vm_compute. reflexivity.
  - exact (colormap_passed_as_given some_library spectral_creator
             "dynamic_images.mp4" 30 50 false Hne spectral_creator_valid Hacc).
Defined.

(** ** The units of [create_animation] *)

(** C10: [create_animation] builds its [DataConfig] with the default units,
    so with the factor [1.0], whatever its arguments and the creator; the
    steps of the header enter the axes as they are. *)
Theorem create_animation_default_units
    (lib : plt.Library) (self : AnimationCreator.t)
    (output_video : string) (fps interval : Z) (repeat : bool) :
  DataConfig.default_units = "degrees"%string /\
  (forall data header,
     DataConfig.init data header None
     = DataConfig.mk data header "degrees" 1.0%float) /\
  AnimationCreator.create_animation lib self output_video fps interval
                                    repeat
  = (cube0 ← getitem (AnimationCreator.cube self) 0;
     axes ← DataConfig.config_axes
              (DataConfig.mk cube0 (AnimationCreator.header self)
                             "degrees" 1.0%float);
     fig ← AnimationCreator.initial_render lib self axes;
     animation.save lib
       {| animation.func := AnimationCreator.animate lib self;
          animation.frames := length (AnimationCreator.cube self);
          animation.interval := interval;
          animation.repeat := repeat;
          animation.blit := false;
          animation.repeat_delay := 1000 |} fig output_video) /\
  (forall cube0 cdelt1 cdelt2 crpix1 crpix2,
     (2 <= length (np.shape cube0))%nat ->
     AnimationCreator.header self !! "cdelt1"%string = Some cdelt1 ->
     AnimationCreator.header self !! "cdelt2"%string = Some cdelt2 ->
     AnimationCreator.header self !! "crpix1"%string = Some crpix1 ->
     AnimationCreator.header self !! "crpix2"%string = Some crpix2 ->
     let x1 := ((crpix1 - 1) * PrimFloat.abs cdelt1)%float in
     let y1 := ((crpix2 - 1) * cdelt2)%float in
     DataConfig.config_axes
       (DataConfig.init cube0 (AnimationCreator.header self) None)
     = (x ← np.arange x1 (- x1 - cdelt1)%float (- cdelt1)%float;
        y ← np.arange_py (- y1)%float (y1 + cdelt2)%float cdelt2;
        Ok (x, y, x1, y1))).
Proof.
  split; [reflexivity | split; [reflexivity | split; [reflexivity |]]].
  intros cube0 cdelt1 cdelt2 crpix1 crpix2 Hdim H1 H2 H3 H4 x1 y1.
  subst x1 y1. unfold DataConfig.init. cbn [default].
  change (DataConfig._set_units_factor DataConfig.default_units)
    with 1%float.
  rewrite (config_axes_eq cube0 (AnimationCreator.header self)
             DataConfig.default_units 1 cdelt1 cdelt2 crpix1 crpix2
             Hdim H1 H2 H3 H4).
  rewrite !FloatOrder.mul_one. reflexivity.
Qed.

Lemma create_animation_default_units_witness :
  (2 <= length (np.shape (flat_frame 50 50 0.25)))%nat /\
  AnimationCreator.header script_creator !! "cdelt1"%string = Some 0.5%float /\
  AnimationCreator.header script_creator !! "cdelt2"%string = Some 0.5%float /\
  AnimationCreator.header script_creator !! "crpix1"%string = Some 50%float /\
  AnimationCreator.header script_creator !! "crpix2"%string = Some 50%float /\
  DataConfig.config_axes
    (DataConfig.init (flat_frame 50 50 0.25)
                     (AnimationCreator.header script_creator) None)
  = (x ← np.arange 24.5 (-25) (-0.5);
     y ← np.arange_py (-24.5) 25 0.5;
     Ok (x, y, 24.5%float, 24.5%float)).
Proof.
  assert (Hdim : (2 <= length (np.shape (flat_frame 50 50 0.25)))%nat)
    by (simpl; lia).
  split; [exact Hdim |]. do 4 (split; [reflexivity |]).
  exact (proj2 (proj2 (proj2
           (create_animation_default_units some_library script_creator
              "dynamic_images.mp4" 30 50 false)))
           (flat_frame 50 50 0.25) 0.5%float 0.5%float 50%float 50%float
           Hdim eq_refl eq_refl eq_refl eq_refl).
Defined.

(** * Further properties of the module *)

(** ** More on [DataConfig] *)

Module FloatArith.

Lemma is_finite_Prim2SF x :
  PrimFloat.is_finite x = true ->
  (exists s, Prim2SF x = S754_zero s) \/
  (exists s m e, Prim2SF x = S754_finite s m e).
Proof.
  unfold PrimFloat.is_finite, PrimFloat.is_infinity.
  destruct (PrimFloat.is_nan x) eqn:N; [discriminate |].
  apply FloatOrder.not_nan_Prim2SF in N.
  rewrite FloatAxioms.eqb_spec, FloatAxioms.abs_spec.
  change (Prim2SF infinity) with (S754_infinity false).
  destruct (Prim2SF x) as [s | s | | s m e]; simpl; intros H; eauto.
  - discriminate.
  - congruence.
Qed.

Lemma is_zero_Prim2SF x :
  PrimFloat.is_zero x = true -> exists s, Prim2SF x = S754_zero s.
Proof.
  unfold PrimFloat.is_zero. rewrite FloatAxioms.eqb_spec.
  change (Prim2SF zero) with (S754_zero false).
  destruct (Prim2SF x) as [s | s | | s m e]; simpl; intros H; eauto;
    try discriminate; destruct s; discriminate.
Qed.

Lemma zero_is_zero x s : Prim2SF x = S754_zero s -> PrimFloat.is_zero x = true.
Proof.
  intros H. unfold PrimFloat.is_zero. rewrite FloatAxioms.eqb_spec, H.
  reflexivity.
Qed.

Lemma opp_zero x : PrimFloat.is_zero x = true -> PrimFloat.is_zero (- x) = true.
Proof.
  intros H. destruct (is_zero_Prim2SF x H) as [s Hs].
  apply (zero_is_zero _ (negb s)). rewrite FloatAxioms.opp_spec, Hs. reflexivity.
Qed.

(** A quotient by zero is an infinity or the NaN. *)
Lemma div_zero x y :
  PrimFloat.is_zero y = true ->
  Prim2SF (x / y) = S754_nan \/ exists s, Prim2SF (x / y) = S754_infinity s.
Proof.
  intros H. destruct (is_zero_Prim2SF y H) as [s Hs].
  rewrite FloatAxioms.div_spec, Hs.
  destruct (Prim2SF x) as [sx | sx | | sx mx ex]; simpl; eauto.
Qed.

Lemma SFopp_round s m e l :
  SFopp (binary_round_aux prec emax s m e l)
  = binary_round_aux prec emax (negb s) m e l.
Proof.
  unfold binary_round_aux.
  destruct (shr_fexp prec emax m e l) as [mrs e'].
  destruct (shr_fexp prec emax _ e' loc_Exact) as [mrs' e''].
  destruct (shr_m mrs'); try reflexivity.
  destruct (e'' <=? emax - prec); reflexivity.
Qed.

Lemma SFmul_opp_l f g : SF64mul (SFopp f) g = SFopp (SF64mul f g).
Proof.
  unfold SF64mul.
  destruct f as [s | s | | s m e], g as [s' | s' | | s' m' e']; simpl;
    try reflexivity; try (destruct s, s'; reflexivity).
  rewrite SFopp_round. destruct s, s'; reflexivity.
Qed.

Lemma SFmul_opp_r f g : SF64mul f (SFopp g) = SFopp (SF64mul f g).
Proof.
  unfold SF64mul.
  destruct f as [s | s | | s m e], g as [s' | s' | | s' m' e']; simpl;
    try reflexivity; try (destruct s, s'; reflexivity).
  rewrite SFopp_round. destruct s, s'; reflexivity.
Qed.

Lemma mul_opp_l x y : (- x * y = - (x * y))%float.
Proof.
  apply Prim2SF_inj.
  rewrite FloatAxioms.mul_spec, !FloatAxioms.opp_spec, FloatAxioms.mul_spec.
  apply SFmul_opp_l.
Qed.

Lemma mul_opp_r x y : (x * - y = - (x * y))%float.
Proof.
  apply Prim2SF_inj.
  rewrite FloatAxioms.mul_spec, !FloatAxioms.opp_spec, FloatAxioms.mul_spec.
  apply SFmul_opp_r.
Qed.

Lemma abs_opp x : PrimFloat.abs (- x) = PrimFloat.abs x.
Proof.
  apply Prim2SF_inj.
  rewrite !FloatAxioms.abs_spec, FloatAxioms.opp_spec.
  destruct (Prim2SF x); reflexivity.
Qed.

(** The product of a zero and a finite number is a zero. *)
Lemma mul_zero_finite x y :
  PrimFloat.is_zero x = true -> PrimFloat.is_finite y = true ->
  PrimFloat.is_zero (x * y) = true.
Proof.
  intros Hx Hy. destruct (is_zero_Prim2SF x Hx) as [s Hs].
  destruct (is_finite_Prim2SF y Hy) as [[s' E] | (s' & m & e & E)].
  - apply (zero_is_zero _ (xorb s s')).
    rewrite FloatAxioms.mul_spec, Hs, E. reflexivity.
  - apply (zero_is_zero _ (xorb s s')).
    rewrite FloatAxioms.mul_spec, Hs, E. reflexivity.
Qed.

Lemma SFleb_antisym f g :
  SFleb f g = true -> SFleb g f = true -> SFeqb f g = true.
Proof.
  unfold SFleb, SFeqb.
  destruct f as [[] | [] | | [] m e], g as [[] | [] | | [] m' e'];
    simpl; try congruence; try reflexivity; intros H1 H2;
    FloatOrder.cmp_cases; simpl in *; try congruence; try reflexivity; try lia.
Qed.

Lemma leb_antisym x y :
  (x <=? y)%float = true -> (y <=? x)%float = true -> (x =? y)%float = true.
Proof.
  rewrite !FloatAxioms.leb_spec, FloatAxioms.eqb_spec. apply SFleb_antisym.
Qed.

End FloatArith.

(** X1: The unit factor is a positive finite number, whatever the label. *)
Theorem units_factor_positive (units : string) :
  (0 <? DataConfig._set_units_factor units)%float = true /\
  PrimFloat.is_finite (DataConfig._set_units_factor units) = true.
Proof.
  unfold DataConfig._set_units_factor.
  destruct (String.eqb units "arcmin"); [split; reflexivity |].
  destruct (String.eqb units "arcsec"); [split; reflexivity |].
  destruct (String.eqb units "rad"); split; reflexivity.
Qed.

Lemma first_missing_cases (header : gmap string float) (k : string) :
  first_missing header = Some k ->
  header !! k = None /\
  (k = "cdelt1"%string \/
   (is_Some (header !! "cdelt1"%string) /\
    (k = "cdelt2"%string \/
     (is_Some (header !! "cdelt2"%string) /\
      (k = "crpix1"%string \/
       (is_Some (header !! "crpix1"%string) /\ k = "crpix2"%string)))))).
Proof.
  unfold first_missing, header_keys. cbn [find].
  destruct (header !! "cdelt1"%string) eqn:E1; [| intros [= <-]; auto].
  destruct (header !! "cdelt2"%string) eqn:E2; [| intros [= <-]; eauto 6].
  destruct (header !! "crpix1"%string) eqn:E3; [| intros [= <-]; eauto 8].
  destruct (header !! "crpix2"%string) eqn:E4; [discriminate |].
  intros [= <-]. eauto 10.
Qed.

Lemma config_axes_few_dims (self : DataConfig.t) :
  (length (np.shape (DataConfig.data self)) < 2)%nat ->
  DataConfig.config_axes self = Raise IndexError.
Proof.
  unfold DataConfig.config_axes, np.shape_at, getitem.
  destruct (np.shape (DataConfig.data self)) as [| n0 [| n1 l]]; simpl;
    intros H; try reflexivity; lia.
Qed.

Lemma config_axes_missing_key (self : DataConfig.t) (k : string) :
  (2 <= length (np.shape (DataConfig.data self)))%nat ->
  first_missing (DataConfig.header self) = Some k ->
  DataConfig.config_axes self = Raise (KeyError k).
Proof.
  intros Hdim Hk.
  destruct (shape_at_two _ Hdim) as (n0 & n1 & E0 & E1).
  unfold DataConfig.config_axes. rewrite E0, E1, !bind_Ok.
  destruct (first_missing_cases _ _ Hk) as [Hnone Hcase].
  unfold getkey.
  destruct Hcase as [-> | ([c1 H1] & Hcase)].
  { rewrite Hnone. reflexivity. }
  rewrite H1, bind_Ok.
  destruct Hcase as [-> | ([c2 H2] & Hcase)].
  { rewrite Hnone. reflexivity. }
  rewrite H2, bind_Ok.
  destruct Hcase as [-> | ([p1 H3] & ->)].
  { rewrite Hnone. reflexivity. }
  rewrite H3, bind_Ok, Hnone. reflexivity.
Qed.

(** X2: What [config_axes] raises: [IndexError] for data with fewer than two
    dimensions, before the header is read; otherwise [KeyError] on the first
    key that the header lacks. *)
Theorem config_axes_errors (self : DataConfig.t) :
  ((length (np.shape (DataConfig.data self)) < 2)%nat ->
   DataConfig.config_axes self = Raise IndexError) /\
  (forall k,
     (2 <= length (np.shape (DataConfig.data self)))%nat ->
     first_missing (DataConfig.header self) = Some k ->
     DataConfig.config_axes self = Raise (KeyError k)).
Proof.
  split.
  - apply config_axes_few_dims.
  - intros k. apply config_axes_missing_key.
Qed.

Lemma config_axes_errors_witness :
  DataConfig.config_axes
    (DataConfig.init {| np.shape := [4]%nat; np.data := [1; 2; 3; 4]%float |}
                     script_header None) = Raise IndexError /\
  DataConfig.config_axes
    (DataConfig.init (flat_frame 2 2 0)
                     (delete "cdelt2"%string (delete "crpix2"%string script_header))
                     None) = Raise (KeyError "cdelt2").
Proof.
  split.
  - apply (proj1 (config_axes_errors _)). simpl. lia.
  - apply (proj2 (config_axes_errors _)).
    + simpl. lia.
    + vm_compute. reflexivity.
Defined.

Lemma ceil_to_intp_not_finite v :
  (Prim2SF v = S754_nan \/ exists s, Prim2SF v = S754_infinity s) ->
  np.ceil_to_intp v = Raise ValueError.
Proof.
  unfold np.ceil_to_intp. intros [-> | [s ->]]; reflexivity.
Qed.

Lemma arange_zero_step start stop step :
  PrimFloat.is_zero step = true ->
  np.arange start stop step = Raise ValueError.
Proof.
  intros Hz. unfold np.arange, np.arange_from.
  rewrite (ceil_to_intp_not_finite _
             (FloatArith.div_zero (stop - start)%float step Hz)).
  reflexivity.
Qed.

Lemma units_factor_finite (units : string) :
  PrimFloat.is_finite (DataConfig._set_units_factor units) = true.
Proof.
  unfold DataConfig._set_units_factor.
  destruct (String.eqb units "arcmin"); [reflexivity |].
  destruct (String.eqb units "arcsec"); [reflexivity |].
  destruct (String.eqb units "rad"); reflexivity.
Qed.

Lemma init_factor_zero (c : float) (units : option string) :
  PrimFloat.is_zero c = true ->
  PrimFloat.is_zero
    (c * DataConfig._set_units_factor (default DataConfig.default_units units))
  = true.
Proof.
  intros Hc. apply FloatArith.mul_zero_finite; [exact Hc |].
  apply units_factor_finite.
Qed.

(** X3: A zero step is never accepted: with [cdelt1] zero the range of [x]
    raises [ValueError]; with [cdelt2] zero the range of [y] raises
    [ZeroDivisionError] when the range of [x] was built, and the error of
    the range of [x] comes first otherwise. *)
Theorem zero_step_raises
    (data : np.ndarray) (header : gmap string float) (units : option string)
    (cdelt1 cdelt2 crpix1 crpix2 : float) :
  (2 <= length (np.shape data))%nat ->
  header !! "cdelt1"%string = Some cdelt1 ->
  header !! "cdelt2"%string = Some cdelt2 ->
  header !! "crpix1"%string = Some crpix1 ->
  header !! "crpix2"%string = Some crpix2 ->
  let factor :=
    DataConfig._set_units_factor (default DataConfig.default_units units) in
  let dx := (cdelt1 * factor)%float in
  let x1 := ((crpix1 - 1) * PrimFloat.abs dx)%float in
  (PrimFloat.is_zero cdelt1 = true ->
   DataConfig.config_axes (DataConfig.init data header units)
   = Raise ValueError) /\
  (PrimFloat.is_zero cdelt2 = true ->
   (forall x, np.arange x1 (- x1 - dx)%float (- dx)%float = Ok x ->
      DataConfig.config_axes (DataConfig.init data header units)
      = Raise ZeroDivisionError) /\
   (forall e, np.arange x1 (- x1 - dx)%float (- dx)%float = Raise e ->
      DataConfig.config_axes (DataConfig.init data header units)
      = Raise e)).
Proof.
  intros Hdim H1 H2 H3 H4 factor dx x1. unfold DataConfig.init.
  rewrite (config_axes_eq data header _ _ cdelt1 cdelt2 crpix1 crpix2
             Hdim H1 H2 H3 H4).
  fold factor. fold dx. fold x1.
  split.
  - intros Hz.
    pose proof (FloatArith.opp_zero _ (init_factor_zero cdelt1 units Hz)) as Hstep.
    fold factor in Hstep. fold dx in Hstep.
    rewrite (arange_zero_step _ _ _ Hstep). reflexivity.
  - intros Hz. pose proof (init_factor_zero cdelt2 units Hz) as Hstep.
    fold factor in Hstep. split.
    + intros x ->. rewrite bind_Ok. unfold np.arange_py. rewrite Hstep.
      reflexivity.
    + intros e ->. reflexivity.
Qed.

Lemma zero_step_raises_witness :
  DataConfig.config_axes
    (DataConfig.init (flat_frame 50 50 0)
                     (<["cdelt1"%string := 0%float]> script_header)
                     (Some "arcsec"%string)) = Raise ValueError /\
  DataConfig.config_axes
    (DataConfig.init (flat_frame 50 50 0)
                     (<["cdelt2"%string := (-0)%float]> script_header)
                     None) = Raise ZeroDivisionError.
Proof.
  split.
  - exact (proj1 (zero_step_raises (flat_frame 50 50 0)
                    (<["cdelt1"%string := 0%float]> script_header)
                    (Some "arcsec"%string) 0 0.5 50 50
                    ltac:(simpl; lia) eq_refl eq_refl eq_refl eq_refl)
                 eq_refl).
  - apply (proj1 (proj2 (zero_step_raises (flat_frame 50 50 0)
                           (<["cdelt2"%string := (-0)%float]> script_header)
                           None 0.5 (-0) 50 50
                           ltac:(simpl; lia) eq_refl eq_refl eq_refl eq_refl)
                        eq_refl)
                 (np.fill 24.5 (-0.5) 99)).
    vm_compute. reflexivity.
Defined.

(** X4: The offset [x1] ignores the sign of [cdelt1]; the offset [y1] follows
    the sign of [cdelt2]. *)
Theorem offsets_and_sign
    (data : np.ndarray) (header : gmap string float) (units : string)
    (factor cdelt1 cdelt2 crpix1 crpix2 : float)
    (a a1 a2 : DataConfig.axes) :
  (2 <= length (np.shape data))%nat ->
  header !! "cdelt1"%string = Some cdelt1 ->
  header !! "cdelt2"%string = Some cdelt2 ->
  header !! "crpix1"%string = Some crpix1 ->
  header !! "crpix2"%string = Some crpix2 ->
  DataConfig.config_axes (DataConfig.mk data header units factor) = Ok a ->
  (DataConfig.config_axes
     (DataConfig.mk data (<["cdelt1"%string := (- cdelt1)%float]> header)
                    units factor) = Ok a1 ->
   DataConfig.axes_2 a1 = DataConfig.axes_2 a /\
   DataConfig.axes_3 a1 = DataConfig.axes_3 a) /\
  (DataConfig.config_axes
     (DataConfig.mk data (<["cdelt2"%string := (- cdelt2)%float]> header)
                    units factor) = Ok a2 ->
   DataConfig.axes_2 a2 = DataConfig.axes_2 a /\
   DataConfig.axes_3 a2 = (- DataConfig.axes_3 a)%float).
Proof.
  intros Hdim H1 H2 H3 H4.
  rewrite (config_axes_eq data header units factor cdelt1 cdelt2 crpix1
             crpix2 Hdim H1 H2 H3 H4).
  destruct (np.arange _ _ _) as [x |]; [rewrite bind_Ok | discriminate].
  destruct (np.arange_py _ _ _) as [y |]; [rewrite bind_Ok | discriminate].
  intros [= <-]. split.
  - rewrite (config_axes_eq data _ units factor (- cdelt1)%float cdelt2
               crpix1 crpix2 Hdim).
    2: apply lookup_insert_eq.
    2-4: rewrite lookup_insert_ne by discriminate; assumption.
    destruct (np.arange _ _ _) as [x' |]; [rewrite bind_Ok | discriminate].
    destruct (np.arange_py _ _ _) as [y' |]; [rewrite bind_Ok | discriminate].
    intros [= <-]. unfold DataConfig.axes_2, DataConfig.axes_3. simpl.
    rewrite FloatArith.mul_opp_l, FloatArith.abs_opp. split; reflexivity.
  - rewrite (config_axes_eq data _ units factor cdelt1 (- cdelt2)%float
               crpix1 crpix2 Hdim).
    3: apply lookup_insert_eq.
    2-4: rewrite lookup_insert_ne by discriminate; assumption.
    destruct (np.arange _ _ _) as [x' |]; [rewrite bind_Ok | discriminate].
    destruct (np.arange_py _ _ _) as [y' |]; [rewrite bind_Ok | discriminate].
    intros [= <-]. unfold DataConfig.axes_2, DataConfig.axes_3. simpl.
    rewrite FloatArith.mul_opp_l, FloatArith.mul_opp_r. split; reflexivity.
Qed.

Lemma offsets_and_sign_witness :
  exists a a1 a2,
    DataConfig.config_axes
      (DataConfig.mk (flat_frame 50 50 0) script_header "degrees" 1) = Ok a /\
    DataConfig.config_axes
      (DataConfig.mk (flat_frame 50 50 0)
         (<["cdelt1"%string := (- 0.5)%float]> script_header) "degrees" 1)
    = Ok a1 /\
    DataConfig.config_axes
      (DataConfig.mk (flat_frame 50 50 0)
         (<["cdelt2"%string := (- 0.5)%float]> script_header) "degrees" 1)
    = Ok a2 /\
    DataConfig.axes_2 a1 = DataConfig.axes_2 a /\
    DataConfig.axes_3 a2 = (- DataConfig.axes_3 a)%float.
Proof.
  do 3 eexists.
  match goal with
  | |- ?A = Ok ?a /\ ?B = Ok ?a1 /\ ?C = Ok ?a2 /\ _ =>
      assert (Ha : A = Ok a) by (vm_compute; reflexivity);
      assert (Ha1 : B = Ok a1) by (vm_compute; reflexivity);
      assert (Ha2 : C = Ok a2) by (vm_compute; reflexivity)
  end.
  split; [exact Ha | split; [exact Ha1 | split; [exact Ha2 |]]].
  match type of Ha1 with
  | _ = Ok ?v1 =>
      match type of Ha2 with
      | _ = Ok ?v2 =>
          destruct (offsets_and_sign (flat_frame 50 50 0) script_header
                      "degrees" 1 0.5 0.5 50 50 _ v1 v2 ltac:(simpl; lia)
                      eq_refl eq_refl eq_refl eq_refl Ha) as [Hx Hy]
      end
  end.
  split; [exact (proj1 (Hx Ha1)) | exact (proj2 (Hy Ha2))].
Defined.

Lemma fill_head start step n :
  np.fill start step n = [] \/ head (np.fill start step n) = Some start.
Proof. destruct n; [left | right]; reflexivity. Qed.

Lemma arange_from_head start step diff quot l :
  np.arange_from start step diff quot = Ok l ->
  l = [] \/ head l = Some start.
Proof.
  unfold np.arange_from. destruct (np.ceil_to_intp quot) as [len |];
    [| discriminate].
  rewrite bind_Ok. intros [= <-]. apply fill_head.
Qed.

Lemma config_axes_ranges self x y x1 y1 :
  DataConfig.config_axes self = Ok (x, y, x1, y1) ->
  exists dx dy,
    np.arange x1 (- x1 - dx)%float (- dx)%float = Ok x /\
    np.arange_py (- y1)%float (y1 + dy)%float dy = Ok y.
Proof.
  unfold DataConfig.config_axes.
  destruct (np.shape_at _ 0) as [n0 |]; [| discriminate]. rewrite bind_Ok.
  destruct (np.shape_at _ 1) as [n1 |]; [| discriminate]. rewrite bind_Ok.
  destruct (getkey _ "cdelt1") as [c1 |]; [| discriminate]. rewrite bind_Ok.
  destruct (getkey _ "cdelt2") as [c2 |]; [| discriminate]. rewrite bind_Ok.
  destruct (getkey _ "crpix1") as [p1 |]; [| discriminate]. rewrite bind_Ok.
  destruct (getkey _ "crpix2") as [p2 |]; [| discriminate]. rewrite bind_Ok.
  cbv zeta.
  destruct (np.arange _ _ _) as [x' |] eqn:Ex; [| discriminate].
  rewrite bind_Ok.
  destruct (np.arange_py _ _ _) as [y' |] eqn:Ey; [| discriminate].
  rewrite bind_Ok. intros [= <- <- <- <-]. eauto.
Qed.

(** X5: The two coordinate arrays begin at the offsets: [x] at [x1] and [y] at
    [-y1], unless they are empty. *)
Theorem ranges_start_at_offsets
    (self : DataConfig.t) (x y : list float) (x1 y1 : float) :
  DataConfig.config_axes self = Ok (x, y, x1, y1) ->
  (x = [] \/ head x = Some x1) /\ (y = [] \/ head y = Some (- y1)%float).
Proof.
  intros H. destruct (config_axes_ranges self x y x1 y1 H) as (dx & dy & Hx & Hy).
  split.
  - unfold np.arange in Hx. eapply arange_from_head, Hx.
  - unfold np.arange_py in Hy.
    destruct (PrimFloat.is_zero dy); [discriminate |].
    eapply arange_from_head, Hy.
Qed.

Lemma ranges_start_at_offsets_witness :
  exists x y,
    DataConfig.config_axes
      (DataConfig.init (flat_frame 50 50 0) script_header (Some "arcmin"%string))
    = Ok (x, y, 1470%float, 1470%float) /\
    head x = Some 1470%float /\ head y = Some (-1470)%float.
Proof.
  do 2 eexists.
  match goal with
  | |- ?A = Ok ?v /\ _ =>
      assert (H : A = Ok v) by (vm_compute; reflexivity)
  end.
  split; [exact H |].
  destruct (ranges_start_at_offsets _ _ _ _ _ H) as [[Hx | Hx] [Hy | Hy]];
    try discriminate.
  split; [exact Hx | exact Hy].
Defined.

(** ** More on [AnimationCreator.__init__] *)

(** With a bound missing, a cube that numpy can stack and that has an
    element gets both bounds from its elements. *)
Lemma init_missing_bounds header cube cube_axis xlabel ylabel cblabel title
    cmap title_pad vmin vmax :
  stackable cube -> elements cube <> [] ->
  vmin = None \/ vmax = None ->
  exists lo hi,
    AnimationCreator.init header cube cube_axis xlabel ylabel cblabel title
                          cmap title_pad vmin vmax
    = Ok (AnimationCreator.mk header cube cube_axis xlabel ylabel cblabel
                              title cmap title_pad (Some lo) (Some hi)) /\
    lo ∈ elements cube /\ hi ∈ elements cube /\
    forall e, e ∈ elements cube -> above e lo /\ below e hi.
Proof.
  intros Hst Hne Hmiss.
  destruct (reduce_twice np.maximum below
              FloatOrder.maximum_pick FloatOrder.maximum_below_l
              FloatOrder.maximum_below_r FloatOrder.below_trans cube Hst Hne)
    as (top & hi & Htop & Hhi & Hin_hi & Hb_hi).
  destruct (reduce_twice np.minimum above
              FloatOrder.minimum_pick FloatOrder.minimum_above_l
              FloatOrder.minimum_above_r FloatOrder.above_trans cube Hst Hne)
    as (bot & lo & Hbot & Hlo & Hin_lo & Hb_lo).
  exists lo, hi. split; [| auto].
  unfold AnimationCreator.init. simpl.
  assert (Hcond : AnimationCreator.is_None vmin || AnimationCreator.is_None vmax = true).
  { destruct Hmiss as [-> | ->]; simpl; [reflexivity | apply orb_true_r]. }
  rewrite Hcond.
  unfold np.amax_axis0, np.amin_axis0, np.amax, np.amin.
  rewrite Htop, bind_Ok, Hhi, bind_Ok, Hbot, bind_Ok, Hlo. reflexivity.
Qed.

Lemma fold_rows_nil f rows : fold_rows f rows [] = [].
Proof. induction rows as [| c rows IH]; simpl; [reflexivity | exact IH]. Qed.

Lemma same_shapes_stackable c0 rest :
  Forall np.wf (c0 :: rest) ->
  forallb (fun c => bool_decide (np.shape c = np.shape c0)) rest = true ->
  stackable (c0 :: rest).
Proof.
  intros Hwf Hsh. split; [exact Hwf |].
  assert (H : forall c, c ∈ c0 :: rest -> np.shape c = np.shape c0).
  { intros c Hc. apply elem_of_cons in Hc as [-> | Hc]; [reflexivity |].
    apply list_elem_of_In in Hc.
    apply (proj1 (forallb_forall _ _) Hsh), bool_decide_eq_true in Hc.
    exact Hc. }
  intros c c' Hc Hc'. rewrite (H c Hc), (H c' Hc'). reflexivity.
Qed.

(** A reduction along the first axis that fails, or leaves nothing to
    reduce, ends [__init__] with [ValueError]. *)
Lemma reduce_nothing cube :
  Forall np.wf cube ->
  ~ (stackable cube /\ elements cube <> []) ->
  np.amax_axis0 cube = Raise ValueError \/
  exists top, np.amax_axis0 cube = Ok top /\ np.amax top = Raise ValueError.
Proof.
  intros Hwf Hnot. unfold np.amax_axis0, np.reduce_axis0.
  destruct cube as [| c0 rest]; [auto |].
  destruct (forallb _ rest) eqn:Hsh; [| auto].
  right. eexists. split; [reflexivity |].
  unfold np.amax. cbn [np.data].
  change (fold_left _ rest (np.data c0))
    with (fold_rows np.maximum rest (np.data c0)).
  destruct (np.data c0) as [| x xs] eqn:Ed.
  - rewrite fold_rows_nil. reflexivity.
  - exfalso. apply Hnot. split.
    + apply same_shapes_stackable; assumption.
    + unfold elements. simpl. rewrite Ed. discriminate.
Qed.

(** X6: The three outcomes of [__init__]: with both bounds given, the creator
    as given, whatever the cube; with a bound missing, a creator with both
    bounds set when the cube can be stacked and has an element, and
    [ValueError] otherwise. *)
Theorem init_outcome
    (header : gmap string float) (cube : list np.ndarray)
    (cube_axis : list float) (xlabel ylabel cblabel title cmap : string)
    (title_pad : float) (vmin vmax : option float) :
  (forall lo hi, vmin = Some lo -> vmax = Some hi ->
     AnimationCreator.init header cube cube_axis xlabel ylabel cblabel title
                           cmap title_pad vmin vmax
     = Ok (AnimationCreator.mk header cube cube_axis xlabel ylabel cblabel
                               title cmap title_pad (Some lo) (Some hi))) /\
  (vmin = None \/ vmax = None ->
   Forall np.wf cube ->
   (stackable cube /\ elements cube <> [] ->
    exists lo hi,
      AnimationCreator.init header cube cube_axis xlabel ylabel cblabel title
                            cmap title_pad vmin vmax
      = Ok (AnimationCreator.mk header cube cube_axis xlabel ylabel cblabel
                                title cmap title_pad (Some lo) (Some hi))) /\
   (~ (stackable cube /\ elements cube <> []) ->
    AnimationCreator.init header cube cube_axis xlabel ylabel cblabel title
                          cmap title_pad vmin vmax = Raise ValueError)).
Proof.
  split.
  - intros lo hi -> ->. reflexivity.
  - intros Hmiss Hwf. split.
    + intros [Hst Hne].
      destruct (init_missing_bounds header cube cube_axis xlabel ylabel
                  cblabel title cmap title_pad vmin vmax Hst Hne Hmiss)
        as (lo & hi & H & _).
      eauto.
    + intros Hnot. unfold AnimationCreator.init. simpl.
      assert (Hcond : AnimationCreator.is_None vmin
                      || AnimationCreator.is_None vmax = true).
      { destruct Hmiss as [-> | ->]; simpl; [reflexivity | apply orb_true_r]. }
      rewrite Hcond.
      destruct (reduce_nothing cube Hwf Hnot) as [-> | (top & -> & Htop)].
      * reflexivity.
      * rewrite bind_Ok, Htop. reflexivity.
Qed.

Lemma init_outcome_witness :
  AnimationCreator.init script_header [] [] "" "" "" "" "plasma" 0%float
                        (Some 0%float) (Some 1%float)
  = Ok (AnimationCreator.mk script_header [] [] "" "" "" "" "plasma" 0%float
                            (Some 0%float) (Some 1%float)) /\
  AnimationCreator.init script_header
    [flat_frame 1 2 0; flat_frame 2 1 0] [] "" "" "" "" "plasma" 0%float
    None (Some 1%float) = Raise ValueError.
Proof.
  split.
  - exact (proj1 (init_outcome script_header [] [] "" "" "" "" "plasma"
                    0%float (Some 0%float) (Some 1%float))
                 0%float 1%float eq_refl eq_refl).
  - apply (proj2 (init_outcome script_header
                    [flat_frame 1 2 0; flat_frame 2 1 0] [] "" "" "" ""
                    "plasma" 0%float None (Some 1%float))).
    + left. reflexivity.
    + repeat constructor.
    + intros [[_ Hsh] _].
      specialize (Hsh (flat_frame 1 2 0) (flat_frame 2 1 0)).
      assert (H : np.shape (flat_frame 1 2 0) = np.shape (flat_frame 2 1 0)).
      { apply Hsh; [left | right; left]. }
      discriminate H.
Defined.

(** X7: The bounds that [__init__] computes are in order. *)
Theorem init_bounds_ordered
    (header : gmap string float) (cube : list np.ndarray)
    (cube_axis : list float) (xlabel ylabel cblabel title cmap : string)
    (title_pad : float) (vmin vmax : option float) :
  stackable cube -> elements cube <> [] -> no_nan (elements cube) ->
  vmin = None \/ vmax = None ->
  exists self lo hi,
    AnimationCreator.init header cube cube_axis xlabel ylabel cblabel title
                          cmap title_pad vmin vmax = Ok self /\
    AnimationCreator.vmin self = Some lo /\
    AnimationCreator.vmax self = Some hi /\
    (lo <=? hi)%float = true.
Proof.
  intros Hst Hne Hnan Hmiss.
  destruct (init_missing_bounds header cube cube_axis xlabel ylabel
              cblabel title cmap title_pad vmin vmax Hst Hne Hmiss)
    as (lo & hi & H & Hlo & Hhi & Hb).
  eexists. exists lo, hi. split; [exact H |]. repeat split.
  destruct (proj2 (Hb lo Hlo)) as [N | L]; [| exact L].
  rewrite (Hnan hi Hhi) in N. discriminate.
Qed.

Lemma example_cube_stackable : stackable example_cube.
Proof.
  split.
  - repeat constructor.
  - intros c c' Hc Hc'. unfold example_cube in *.
    repeat (apply elem_of_cons in Hc as [-> | Hc]);
      repeat (apply elem_of_cons in Hc' as [-> | Hc']);
      try reflexivity;
      solve [ apply not_elem_of_nil in Hc; contradiction
            | apply not_elem_of_nil in Hc'; contradiction ].
Qed.

Lemma example_cube_no_nan : no_nan (elements example_cube).
Proof.
  intros e He. unfold example_cube, elements in He. simpl in He.
  repeat (apply elem_of_cons in He as [-> | He]); try reflexivity.
  apply not_elem_of_nil in He. contradiction.
Qed.

Lemma init_bounds_ordered_witness :
  exists self lo hi,
    AnimationCreator.init script_header example_cube [0; 1]%float
                          "" "" "" "" "plasma" 0%float None None = Ok self /\
    AnimationCreator.vmin self = Some lo /\
    AnimationCreator.vmax self = Some hi /\
    (lo <=? hi)%float = true.
Proof.
  apply init_bounds_ordered.
  - exact example_cube_stackable.
  - discriminate.
  - exact example_cube_no_nan.
  - left. reflexivity.
Defined.

Lemma mutual_above a b : above a b -> above b a -> same_value a b.
Proof.
  intros [Nb | Lba] [Na | Lab].
  - right. split; assumption.
  - apply FloatOrder.leb_not_nan in Lab. destruct Lab; congruence.
  - apply FloatOrder.leb_not_nan in Lba. destruct Lba; congruence.
  - left. apply FloatArith.leb_antisym; assumption.
Qed.

Lemma mutual_below a b : below a b -> below b a -> same_value a b.
Proof.
  intros [Nb | Lab] [Na | Lba].
  - right. split; assumption.
  - apply FloatOrder.leb_not_nan in Lba. destruct Lba; congruence.
  - apply FloatOrder.leb_not_nan in Lab. destruct Lab; congruence.
  - left. apply FloatArith.leb_antisym; assumption.
Qed.

Lemma elements_elem cube e :
  e ∈ elements cube <-> exists c, c ∈ cube /\ e ∈ np.data c.
Proof.
  unfold elements. induction cube as [| c0 rest IH]; simpl.
  - split; [intros H; apply not_elem_of_nil in H; contradiction |].
    intros (c & H & _). apply not_elem_of_nil in H. contradiction.
  - rewrite elem_of_app, IH. split.
    + intros [H | (c & Hc & He)].
      * exists c0. split; [left | exact H].
      * exists c. split; [right; exact Hc | exact He].
    + intros (c & Hc & He). apply elem_of_cons in Hc as [-> | Hc]; eauto.
Qed.

Lemma elements_Permutation cube cube' e :
  cube ≡ₚ cube' -> e ∈ elements cube -> e ∈ elements cube'.
Proof.
  intros Hp. rewrite !elements_elem. intros (c & Hc & He).
  exists c. split; [| exact He]. rewrite <- Hp. exact Hc.
Qed.

Lemma stackable_Permutation cube cube' :
  cube ≡ₚ cube' -> stackable cube -> stackable cube'.
Proof.
  intros Hp [Hwf Hsh]. split.
  - rewrite <- Hp. exact Hwf.
  - intros c c' Hc Hc'. apply Hsh; rewrite Hp; assumption.
Qed.

(** X8: The colour scale does not depend on the order of the frames: the
    bounds computed for a reordered cube have the same values. *)
Theorem init_bounds_frame_order
    (header : gmap string float) (cube cube' : list np.ndarray)
    (cube_axis : list float) (xlabel ylabel cblabel title cmap : string)
    (title_pad : float) (vmin vmax : option float) :
  stackable cube -> elements cube <> [] -> cube ≡ₚ cube' ->
  vmin = None \/ vmax = None ->
  exists lo hi lo' hi',
    AnimationCreator.init header cube cube_axis xlabel ylabel cblabel title
                          cmap title_pad vmin vmax
    = Ok (AnimationCreator.mk header cube cube_axis xlabel ylabel cblabel
                              title cmap title_pad (Some lo) (Some hi)) /\
    AnimationCreator.init header cube' cube_axis xlabel ylabel cblabel title
                          cmap title_pad vmin vmax
    = Ok (AnimationCreator.mk header cube' cube_axis xlabel ylabel cblabel
                              title cmap title_pad (Some lo') (Some hi')) /\
    same_value lo lo' /\ same_value hi hi'.
Proof.
  intros Hst Hne Hp Hmiss.
  assert (Hst' : stackable cube') by (eapply stackable_Permutation; eassumption).
  assert (Hne' : elements cube' <> []).
  { destruct (elements cube) as [| e l] eqn:E; [congruence |].
    assert (He : e ∈ elements cube') .
    { apply (elements_Permutation cube cube' e Hp). rewrite E. left. }
    intros E'. rewrite E' in He. apply not_elem_of_nil in He. exact He. }
  destruct (init_missing_bounds header cube cube_axis xlabel ylabel
              cblabel title cmap title_pad vmin vmax Hst Hne Hmiss)
    as (lo & hi & H & Hlo & Hhi & Hb).
  destruct (init_missing_bounds header cube' cube_axis xlabel ylabel
              cblabel title cmap title_pad vmin vmax Hst' Hne' Hmiss)
    as (lo' & hi' & H' & Hlo' & Hhi' & Hb').
  exists lo, hi, lo', hi'. split; [exact H | split; [exact H' |]].
  assert (Hp' : cube' ≡ₚ cube) by (symmetry; exact Hp).
  split.
  - apply mutual_above.
    + apply Hb', (elements_Permutation cube cube' lo Hp Hlo).
    + apply Hb, (elements_Permutation cube' cube lo' Hp' Hlo').
  - apply mutual_below.
    + apply Hb', (elements_Permutation cube cube' hi Hp Hhi).
    + apply Hb, (elements_Permutation cube' cube hi' Hp' Hhi').
Qed.

Lemma init_bounds_frame_order_witness :
  exists lo hi lo' hi',
    AnimationCreator.init script_header example_cube [0; 1]%float
                          "" "" "" "" "plasma" 0%float None None
    = Ok (AnimationCreator.mk script_header example_cube [0; 1]%float
                              "" "" "" "" "plasma" 0%float (Some lo) (Some hi)) /\
    AnimationCreator.init script_header (rev example_cube) [0; 1]%float
                          "" "" "" "" "plasma" 0%float None None
    = Ok (AnimationCreator.mk script_header (rev example_cube) [0; 1]%float
                              "" "" "" "" "plasma" 0%float (Some lo') (Some hi')) /\
    same_value lo lo' /\ same_value hi hi'.
Proof.
  apply init_bounds_frame_order.
  - exact example_cube_stackable.
  - discriminate.
  - symmetry. apply Permutation_rev.
  - left. reflexivity.
Defined.

(** ** More on [create_animation] *)

(** X9: The errors of the axes come first: a first frame with fewer than two
    dimensions, or a header that lacks a key, ends [create_animation] before
    anything is rendered, whatever the colormap. *)
Theorem create_animation_axes_errors
    (lib : plt.Library) (self : AnimationCreator.t)
    (c0 : np.ndarray) (output_video : string) (fps interval : Z)
    (repeat : bool) :
  AnimationCreator.cube self !! 0%nat = Some c0 ->
  ((length (np.shape c0) < 2)%nat ->
   AnimationCreator.create_animation lib self output_video fps
                                     interval repeat = Raise IndexError) /\
  (forall k,
     (2 <= length (np.shape c0))%nat ->
     first_missing (AnimationCreator.header self) = Some k ->
     AnimationCreator.create_animation lib self output_video fps
                                       interval repeat = Raise (KeyError k)).
Proof.
  intros Hc. unfold AnimationCreator.create_animation, getitem.
  rewrite Hc, bind_Ok. split.
  - intros Hdim. rewrite config_axes_few_dims by exact Hdim. reflexivity.
  - intros k Hdim Hk.
    rewrite (config_axes_missing_key _ k) by assumption. reflexivity.
Qed.

Lemma create_animation_axes_errors_witness :
  AnimationCreator.create_animation bare_library
    (AnimationCreator.mk (delete "crpix1"%string script_header)
       [flat_frame 2 2 0.5] [-10]%float "" "" "" "" "no such map" 0%float
       None None)
    "dynamic_images.mp4" 30 50 false = Raise (KeyError "crpix1").
Proof.
  apply (proj2 (create_animation_axes_errors bare_library
                  (AnimationCreator.mk (delete "crpix1"%string script_header)
                     [flat_frame 2 2 0.5] [-10]%float "" "" "" ""
                     "no such map" 0%float None None)
                  (flat_frame 2 2 0.5) "dynamic_images.mp4" 30 50 false
                  eq_refl)).
  - simpl. lia.
  - vm_compute. reflexivity.
Defined.

Lemma draw_frames_ext draw (f g : nat -> plt.Figure -> result plt.Figure) idx :
  (forall i fig, i ∈ idx -> f i fig = g i fig) ->
  forall fig, animation.draw_frames draw f idx fig
              = animation.draw_frames draw g idx fig.
Proof.
  induction idx as [| i idx IH]; intros Hfg fig; [reflexivity |].
  cbn [animation.draw_frames].
  rewrite (Hfg i fig) by left.
  destruct (g i fig) as [fig' |]; [| reflexivity].
  rewrite !bind_Ok. destruct (draw fig'); [reflexivity |].
  rewrite IH; [reflexivity |].
  intros k fig'' Hk. apply Hfg. right. exact Hk.
Qed.

Lemma save_ext lib (f g : nat -> plt.Figure -> result plt.Figure) n interval
    repeat blit delay fig filename :
  (forall i fig, (i < n)%nat -> f i fig = g i fig) ->
  animation.save lib (animation.mk f n interval repeat blit delay) fig filename
  = animation.save lib (animation.mk g n interval repeat blit delay) fig
                   filename.
Proof.
  intros Hfg. unfold animation.save, animation.init_draw.
  cbn [animation.func animation.frames animation.interval].
  destruct (interval =? 0); [reflexivity |].
  destruct (plt.writer_error lib filename interval); [reflexivity |].
  assert (Hd : forall fig',
             animation.draw_frames (plt.draw_error lib) f (seq 0 n) fig'
             = animation.draw_frames (plt.draw_error lib) g (seq 0 n) fig').
  { apply draw_frames_ext. intros i fig' Hi. apply elem_of_seq in Hi.
    apply Hfg. lia. }
  destruct n as [| n]; cbn [seq].
  - reflexivity.
  - rewrite (Hfg 0%nat fig) by lia.
    destruct (g 0%nat fig) as [fig' |]; [| reflexivity].
    rewrite !bind_Ok. change (0%nat :: seq 1 n) with (seq 0 (S n)).
    rewrite Hd. reflexivity.
Qed.

(** X10: The depths beyond the last frame are never read. *)
Theorem surplus_depths_unread
    (lib : plt.Library) (self : AnimationCreator.t)
    (output_video : string) (fps interval : Z) (repeat : bool) :
  AnimationCreator.create_animation lib
    (with_cube_axis (take (length (AnimationCreator.cube self))
                          (AnimationCreator.cube_axis self)) self)
    output_video fps interval repeat
  = AnimationCreator.create_animation lib self output_video fps
                                      interval repeat.
Proof.
  unfold AnimationCreator.create_animation.
  cbn [with_cube_axis AnimationCreator.cube AnimationCreator.header].
  destruct (getitem (AnimationCreator.cube self) 0) as [c0 |]; [| reflexivity].
  rewrite !bind_Ok.
  destruct (DataConfig.config_axes _) as [axes |]; [| reflexivity].
  rewrite !bind_Ok.
  change (AnimationCreator.initial_render lib (with_cube_axis _ self) axes)
    with (AnimationCreator.initial_render lib self axes).
  destruct (AnimationCreator.initial_render lib self axes) as [fig |];
    [| reflexivity].
  rewrite !bind_Ok. apply save_ext.
  intros i fig' Hi. unfold AnimationCreator.animate.
  cbn [with_cube_axis AnimationCreator.cube AnimationCreator.cube_axis
       AnimationCreator.vmin AnimationCreator.vmax].
  assert (E : getitem (take (length (AnimationCreator.cube self))
                            (AnimationCreator.cube_axis self)) i
              = getitem (AnimationCreator.cube_axis self) i).
  { unfold getitem. rewrite lookup_take_lt by exact Hi. reflexivity. }
  destruct (getitem (AnimationCreator.cube self) i) as [arr |]; [| reflexivity].
  rewrite !bind_Ok, E. reflexivity.
Qed.

(** The title of the first render does not survive the update of a
    frame. *)
Lemma animate_retitled lib self title title_pad label pad i fig :
  AnimationCreator.animate lib (with_title title title_pad self) i
    (plt.set_title label pad fig)
  = AnimationCreator.animate lib self i fig.
Proof.
  unfold AnimationCreator.animate.
  cbn [with_title AnimationCreator.cube AnimationCreator.cube_axis
       AnimationCreator.vmin AnimationCreator.vmax].
  destruct (getitem (AnimationCreator.cube self) i) as [arr |]; [| reflexivity].
  rewrite !bind_Ok.
  destruct (getitem (AnimationCreator.cube_axis self) i) as [phi |];
    [| reflexivity].
  reflexivity.
Qed.

(** The title given to the creator is all that the first render keeps of
    it. *)
Lemma initial_render_title lib self title title_pad axes :
  AnimationCreator.initial_render lib (with_title title title_pad self) axes
  = (fig ← AnimationCreator.initial_render lib self axes;
     Ok (plt.set_title title (Some title_pad) fig)).
Proof.
  unfold AnimationCreator.initial_render, AnimationCreator.first_image.
  cbn [with_title AnimationCreator.cube AnimationCreator.cmap
       AnimationCreator.title AnimationCreator.title_pad
       AnimationCreator.xlabel AnimationCreator.ylabel
       AnimationCreator.cblabel].
  destruct (getitem (AnimationCreator.cube self) 0) as [c0 |]; [| reflexivity].
  rewrite !bind_Ok.
  destruct (plt.imshow lib c0 _ _ _ _) as [im |]; [| reflexivity].
  rewrite !bind_Ok. cbv zeta. unfold ColorBarManager.create_colorbar.
  cbn [plt.im_data plt.im_clim plt.set_title plt.set_xlabel plt.set_ylabel].
  destruct (plt.colorbar_draw lib _ _) as [lims |]; reflexivity.
Qed.

(** X11: The title and its padding given to the creator, and the [fps] given to
    [create_animation], leave no trace in what is written: the first update
    replaces the title before a frame is grabbed. *)
Theorem title_and_fps_unused
    (lib : plt.Library) (self : AnimationCreator.t)
    (title : string) (title_pad : float)
    (output_video : string) (fps fps' interval : Z) (repeat : bool) :
  AnimationCreator.create_animation lib (with_title title title_pad self)
    output_video fps' interval repeat
  = AnimationCreator.create_animation lib self output_video fps
                                      interval repeat.
Proof.
  unfold AnimationCreator.create_animation.
  cbn [with_title AnimationCreator.cube AnimationCreator.header].
  unfold getitem at 1 2.
  destruct (AnimationCreator.cube self !! 0%nat) as [c0 |] eqn:Hc;
    [| reflexivity].
  rewrite !bind_Ok.
  destruct (DataConfig.config_axes _) as [axes |]; [| reflexivity].
  rewrite !bind_Ok.
  assert (Hlen : (0 < length (AnimationCreator.cube self))%nat)
    by (eapply lookup_lt_Some, Hc).
  change (AnimationCreator.mk (AnimationCreator.header self)
            (AnimationCreator.cube self) (AnimationCreator.cube_axis self)
            (AnimationCreator.xlabel self) (AnimationCreator.ylabel self)
            (AnimationCreator.cblabel self) title (AnimationCreator.cmap self)
            title_pad (AnimationCreator.vmin self) (AnimationCreator.vmax self))
    with (with_title title title_pad self).
  rewrite initial_render_title.
  destruct (AnimationCreator.initial_render lib self axes) as [fig |];
    [| reflexivity].
  rewrite !bind_Ok. unfold animation.save.
  cbn [animation.interval].
  destruct (interval =? 0); [reflexivity |].
  destruct (plt.writer_error lib output_video interval); [reflexivity |].
  rewrite !init_draw_first by exact Hlen.
  cbn [animation.func animation.frames].
  rewrite animate_retitled.
  destruct (AnimationCreator.animate lib self 0 fig) as [fig' |];
    [| reflexivity].
  rewrite !bind_Ok.
  rewrite (draw_frames_ext (plt.draw_error lib)
             (AnimationCreator.animate lib (with_title title title_pad self))
             (AnimationCreator.animate lib self)).
  - reflexivity.
  - intros i fig'' _. reflexivity.
Qed.

(** X12: With fewer depths than frames, but one at least, the update of the
    first frame without a depth raises [IndexError]; the frames before it
    have been grabbed, and the writer leaves a file with them. *)
Theorem short_depths_raise
    (lib : plt.Library) (self : AnimationCreator.t)
    (c0 : np.ndarray) (axes : DataConfig.axes)
    (output_video : string) (fps interval : Z) (repeat : bool) :
  Forall (fun c => length (np.shape c) = 2%nat) (AnimationCreator.cube self) ->
  plt.registered lib (AnimationCreator.cmap self) = true ->
  AnimationCreator.cube self !! 0%nat = Some c0 ->
  DataConfig.config_axes
    (DataConfig.init c0 (AnimationCreator.header self) None) = Ok axes ->
  library_accepts lib self output_video interval ->
  (0 < length (AnimationCreator.cube_axis self))%nat ->
  (length (AnimationCreator.cube_axis self)
   < length (AnimationCreator.cube self))%nat ->
  AnimationCreator.create_animation lib self output_video fps interval
                                    repeat = Raise IndexError /\
  exists fs,
    AnimationCreator.written_video lib self output_video fps interval repeat
    = Some {| animation.filename := output_video;
              animation.grabbed := fs |} /\
    frames_of lib self axes
              (seq 0 (length (AnimationCreator.cube_axis self))) fs.
Proof.
  intros H2d Hreg Hc Hax Hacc Hpos Hshort.
  assert (H0 : (0 < length (AnimationCreator.cube self))%nat) by lia.
  destruct (initial_render_decorated lib self output_video interval c0 axes
              H2d Hacc Hc Hreg) as (fig0 & E0 & Hd0 & Hcl0).
  destruct (frame_step lib self output_video interval c0 axes H2d Hacc Hc Hax
              0 fig0 H0 Hpos Hd0 Hcl0) as (fig1 & E1 & _ & Hf1).
  destruct (frame_of_decorated _ _ _ _ _ Hf1) as [Hd1 Hcl1].
  set (k := length (AnimationCreator.cube_axis self)) in *.
  set (n := length (AnimationCreator.cube self)) in *.
  assert (Hseq : seq 0 n = seq 0 k ++ k :: seq (S k) (n - S k)).
  { replace n with (k + S (n - S k))%nat at 1 by lia.
    rewrite seq_app. reflexivity. }
  destruct (draw_frames_short lib self output_video interval c0 axes H2d
              Hacc Hc Hax (seq 0 k) k (seq (S k) (n - S k)))
    with (fig := fig1) as (fs & Er & Eg & Hfs); try assumption.
  { apply Forall_forall. intros i Hi. apply elem_of_seq in Hi.
    fold n k. lia. }
  { fold k. lia. }
  rewrite <- Hseq in Er, Eg.
  assert (Hi0 : (interval =? 0) = false) by (apply Z.eqb_neq, Hacc).
  assert (Hw : plt.writer_error lib output_video interval = None)
    by apply Hacc.
  split.
  - unfold AnimationCreator.create_animation, getitem.
    rewrite Hc, bind_Ok, Hax, bind_Ok, E0, bind_Ok.
    unfold animation.save. cbn [animation.interval]. rewrite Hi0, Hw.
    rewrite init_draw_first by exact H0.
    cbn [animation.func animation.frames].
    fold n. rewrite E1, bind_Ok, Er. reflexivity.
  - exists fs. split; [| exact Hfs].
    unfold AnimationCreator.written_video, getitem.
    rewrite Hc, bind_Ok, Hax, bind_Ok, E0.
    unfold animation.written. cbn [animation.interval]. rewrite Hi0, Hw.
    rewrite init_draw_first by exact H0.
    cbn [animation.func animation.frames].
    fold n. rewrite E1, Eg. reflexivity.
Qed.

Lemma short_depths_raise_witness :
  AnimationCreator.create_animation some_library short_axis_creator
    "dynamic_images.mp4" 30 50 false = Raise IndexError /\
  exists fs,
    AnimationCreator.written_video some_library short_axis_creator
      "dynamic_images.mp4" 30 50 false
    = Some {| animation.filename := "dynamic_images.mp4";
              animation.grabbed := fs |} /\
    length fs = 1%nat.
Proof.
  destruct (script_header_axes (flat_frame 2 2 0.5) eq_refl)
    as (axes & Hax & _).
  destruct (short_depths_raise some_library short_axis_creator
              (flat_frame 2 2 0.5) axes "dynamic_images.mp4" 30 50 false)
    as (E & fs & Ew & Hfs).
  - repeat constructor.
  - reflexivity.
  - reflexivity.
  - exact Hax.
  - apply some_library_accepts. discriminate.
  - simpl. lia.
  - simpl. lia.
  - split; [exact E |]. exists fs. split; [exact Ew |].
    apply Forall2_length in Hfs. simpl in Hfs. congruence.
Defined.




